(** * update-lambda-env-sms.py: the read / merge / write flow, verified

    A shallow embedding of [scripts/update-lambda-env-sms.py].  The script
    fetches the environment variables of one Lambda function through the
    [aws] command line, overlays a fixed SMS configuration on them, submits
    the result as the new environment, and prints a masked report.

    Conventions of the model.
    - A Python [str] is a [string]; one [ascii] stands for one character, so
      [String.length] is Python's [len].  The pictographs of the script's own
      messages are spelled as the bytes of the source file.
    - A Python [dict] is the list of its items in insertion order; a
      well-formed dict has pairwise distinct keys ([wf]).
    - What the script does not define itself, the [aws] command behind
      [subprocess.run] and the library functions [json.loads], [json.dumps]
      and [str()] of a value that is not a string, are the fields of a
      [Runtime]; every statement about a run holds for every [Runtime].
    - A run is the sequence of its events (lines printed, commands started)
      and the way it ends.  The model covers the runs in which the command
      can be started and its output decoded as text, and in which [print]
      succeeds. *)

From Stdlib Require Import List String Ascii ZArith Bool Lia.
From Stdlib Require Import Permutation Sorted.
From Stdlib Require DecimalString.
Import ListNotations.

Local Open Scope string_scope.
Local Open Scope list_scope.

Set Warnings "-register-all".

(** ** Python values, as [json.loads] returns them *)

Inductive pyval : Type :=
| PNone                                   (* null *)
| PBool (b : bool)                        (* true, false *)
| PNum (literal : string)                 (* an int or a float, kept as read *)
| PStr (s : string)
| PList (items : list pyval)
| PDict (items : list (string * pyval)).

(** ** Dictionaries *)

Module Dict.
Section Ops.
Context {V : Type}.

Definition t := list (string * V).

Definition keys (d : t) : list string := map fst d.

(** [d.get(k)] *)
Fixpoint get (k : string) (d : t) : option V :=
  match d with
  | [] => None
  | (k', v) :: d' => if String.eqb k k' then Some v else get k d'
  end.

(** [d[k] = v]: an existing key keeps its place, a new one goes last. *)
Fixpoint set (k : string) (v : V) (d : t) : t :=
  match d with
  | [] => [(k, v)]
  | (k', v') :: d' =>
      if String.eqb k k' then (k, v) :: d' else (k', v') :: set k v d'
  end.

(** [d.update(src)]: the items of [src] are stored one by one, in order. *)
Definition update (d src : t) : t :=
  fold_left (fun acc kv => set (fst kv) (snd kv) acc) src d.

(** The dict display [{**a, **b}]: a fresh dict, updated with [a] and
    then with [b]. *)
Definition unpack2 (a b : t) : t := update (update [] a) b.

Definition wf (d : t) : Prop := NoDup (keys d).
End Ops.
Arguments t : clear implicits.
End Dict.

(** ** The constants of the script *)

Definition function_name : string := "scrapmate-node-api-production".
Definition region : string := "ap-south-1".

Definition sms_config : Dict.t pyval :=
  [ ("SMS_API_URL_NEW", PStr "http://4sms.alp-ts.com/api/sms/v1.0/send-sms");
    ("SMS_API_ENITYID", PStr "1701173389563945545");
    ("SMS_API_TOKEN", PStr "EVLZ8267TMY1O2Z");
    ("SMS_API_KEY", PStr "/BR2+k;L(-aPKA@r%5SO*GzcCm8&Hg6o");
    ("SMS_HEADER_CENTER_ID", PStr "SCRPMT") ].

(** Line 43: [updated_env = {**current_env, **sms_config}]. *)
Definition merge (current_env patch : Dict.t pyval) : Dict.t pyval :=
  Dict.unpack2 current_env patch.

(** ** Strings *)

(** A line feed, as in the script's ["\n..."] messages. *)
Definition nl : string := String (ascii_of_nat 10) EmptyString.

(** [str(n)] for a count. *)
Definition str_of_nat (n : nat) : string :=
  DecimalString.NilZero.string_of_uint (Nat.to_uint n).

(** [needle in hay], on strings: [needle] starts at some position of [hay]. *)
Fixpoint contains (needle hay : string) : bool :=
  String.prefix needle hay
  || match hay with
     | EmptyString => false
     | String _ rest => contains needle rest
     end.

(** [s[:n]] *)
Definition str_prefix (n : nat) (s : string) : string := substring 0 n s.

(** ** [sorted] on strings

    Python orders strings character by character, which is
    [String.leb].  The order is total and antisymmetric, so every correct
    sort returns the same list; insertion is the simplest one. *)

Fixpoint insert_sorted (k : string) (l : list string) : list string :=
  match l with
  | [] => [k]
  | h :: t => if String.leb k h then k :: l else h :: insert_sorted k t
  end.

Fixpoint sorted (l : list string) : list string :=
  match l with
  | [] => []
  | h :: t => insert_sorted h (sorted t)
  end.

(** ** What the script can observe and do *)

(** [subprocess.CompletedProcess], with [capture_output=True, text=True]. *)
Record CompletedProcess : Type := {
  returncode : Z;
  stdout : string;
  stderr : string
}.

(** The places of the script where an exception can escape; none of them is
    inside a [try]. *)
Inductive site : Type :=
| AtLoadsFetch      (* line 39: json.loads(result.stdout) *)
| AtLenEnv          (* line 40: len(current_env) *)
| AtMerge           (* line 43: {**current_env, **sms_config} *)
| AtLoadsUpdate     (* line 63: json.loads(update_result.stdout) *)
| AtEnvironment     (* line 66: updated_config["Environment"] *)
| AtVariables       (* line 66: ...["Variables"] *)
| AtKeys            (* line 66: ....keys() *)
| AtValue           (* line 67: ...["Variables"][key] *)
| AtLenValue        (* line 69: len(value) *)
| AtSlice.          (* line 69: value[:10] *)

Inductive event : Type :=
| Stdout (text : string)          (* print(text): text and a line end on sys.stdout *)
| Spawn (argv : list string)      (* subprocess.run(argv, ...) *)
| Traceback (at_ : site).         (* the interpreter reports an uncaught
                                     exception on sys.stderr *)

(** How a run of statements stops early. *)
Inductive halt : Type :=
| SysExit (code : Z)              (* sys.exit(code) *)
| Raise (at_ : site).             (* an exception nobody catches *)

(** The library and the command line the script runs against.  A dict
    that [json_loads] returns is a Python dict: the statements that depend
    on its keys being distinct say so ([Dict.wf]). *)
Record Runtime : Type := {
  subprocess_run : list string -> CompletedProcess;
  json_loads : string -> option pyval;      (* None: JSONDecodeError *)
  json_dumps : pyval -> string;
  repr : pyval -> string                    (* str(v), v not a str *)
}.

(** ** A small monad: the events so far, and a result or an early stop *)

Definition M (A : Type) : Type := (list event * (halt + A))%type.

Definition ret {A} (a : A) : M A := ([], inr a).

Definition bind {A B} (m : M A) (f : A -> M B) : M B :=
  match m with
  | (t, inl h) => (t, inl h)
  | (t, inr a) => let (t', r) := f a in (t ++ t', r)
  end.

Notation "x <- m ;; k" := (bind m (fun x => k))
  (at level 61, m at next level, right associativity).
Notation "m ;; k" := (bind m (fun _ => k))
  (at level 61, right associativity).

Definition print (text : string) : M unit := ([Stdout text], inr tt).
Definition sys_exit {A} (code : Z) : M A := ([], inl (SysExit code)).
Definition raise {A} (s : site) : M A := ([], inl (Raise s)).

(** An operation that raises where it has no result. *)
Definition try {A} (s : site) (o : option A) : M A :=
  match o with
  | Some a => ret a
  | None => raise s
  end.

Fixpoint for_each {A} (l : list A) (body : A -> M unit) : M unit :=
  match l with
  | [] => ret tt
  | x :: l' => body x ;; for_each l' body
  end.

(** ** Built-ins on decoded values *)

(** [len(v)]: defined on strings, lists and dicts. *)
Definition py_len (v : pyval) : option nat :=
  match v with
  | PStr s => Some (String.length s)
  | PList l => Some (List.length l)
  | PDict d => Some (List.length d)
  | _ => None
  end.

(** [**v] inside a dict display: [v] must be a mapping. *)
Definition as_mapping (v : pyval) : option (Dict.t pyval) :=
  match v with
  | PDict d => Some d
  | _ => None
  end.

(** [v[k]] for a string [k]: only a dict that has the key answers. *)
Definition py_getitem (v : pyval) (k : string) : option pyval :=
  match v with
  | PDict d => Dict.get k d
  | _ => None
  end.

(** [v.keys()] *)
Definition py_keys (v : pyval) : option (list string) :=
  match v with
  | PDict d => Some (Dict.keys d)
  | _ => None
  end.

(** [v[:10]], reached only where [len(v)] succeeded: a prefix of a string
    or of a list; a dict cannot be sliced. *)
Definition py_slice10 (v : pyval) : option pyval :=
  match v with
  | PStr s => Some (PStr (str_prefix 10 s))
  | PList l => Some (PList (firstn 10 l))
  | _ => None
  end.

(** ** The script *)

Definition fetch_argv : list string :=
  ["aws"; "lambda"; "get-function-configuration";
   "--function-name"; function_name;
   "--region"; region;
   "--query"; "Environment.Variables";
   "--output"; "json"].

Definition update_argv (env_json_str : string) : list string :=
  ["aws"; "lambda"; "update-function-configuration";
   "--function-name"; function_name;
   "--region"; region;
   "--environment"; env_json_str].

(** Line 68. *)
Definition sensitive (key : string) : bool :=
  contains "KEY" key || contains "TOKEN" key
  || contains "SECRET" key || contains "PRIVATE" key.

Section Script.
Variable rt : Runtime.

(** What an f-string puts in place of [{v}]. *)
Definition py_str (v : pyval) : string :=
  match v with
  | PStr s => s
  | _ => repr rt v
  end.

Definition run (argv : list string) : M CompletedProcess :=
  ([Spawn argv], inr (subprocess_run rt argv)).

(** Lines 23-40, under the comment [# Get current environment variables]. *)
Definition get_current_env : M pyval :=
  print ("🔍 Fetching current environment variables from "
         ++ function_name ++ "...") ;;
  result <- run fetch_argv ;;
  (if Z.eqb (returncode result) 0 then ret tt
   else print ("❌ Error fetching current configuration: " ++ stderr result) ;;
        sys_exit 1) ;;
  current_env <- try AtLoadsFetch (json_loads rt (stdout result)) ;;
  n <- try AtLenEnv (py_len current_env) ;;
  print ("✅ Current environment variables: " ++ str_of_nat n ++ " variables") ;;
  ret current_env.

(** Lines 42-45, under the comment [# Merge with SMS configuration]. *)
Definition merge_sms (current_env : pyval) : M (Dict.t pyval) :=
  fetched <- try AtMerge (as_mapping current_env) ;;
  let updated_env := merge fetched sms_config in
  print ("✅ Updated environment variables: "
         ++ str_of_nat (List.length updated_env) ++ " variables") ;;
  print "   Added SMS configuration variables" ;;
  ret updated_env.

(** Lines 68-71.  The condition [len(value) > 10] is evaluated before
    either arm of the conditional expression. *)
Definition display_value (key : string) (value : pyval) : M pyval :=
  if sensitive key then
    n <- try AtLenValue (py_len value) ;;
    if Nat.ltb 10 n then
      head <- try AtSlice (py_slice10 value) ;;
      ret (PStr (py_str head ++ "..."))
    else ret (PStr "***")
  else ret value.

(** Line 72. *)
Definition report_line (key : string) (shown : pyval) : string :=
  "   ✅ " ++ key ++ ": " ++ py_str shown.

(** Lines 66-72. *)
Definition report (updated_config : pyval) : M unit :=
  environment <- try AtEnvironment (py_getitem updated_config "Environment") ;;
  variables <- try AtVariables (py_getitem environment "Variables") ;;
  ks <- try AtKeys (py_keys variables) ;;
  for_each (sorted ks) (fun key =>
    value <- try AtValue (py_getitem variables key) ;;
    shown <- display_value key value ;;
    print (report_line key shown)).

(** What line 49 builds and line 54 passes after [--environment]. *)
Definition env_json_str (updated_env : Dict.t pyval) : string :=
  json_dumps rt (PDict [("Variables", PDict updated_env)]).

(** Lines 47-72, under the comment [# Update Lambda function]. *)
Definition update_lambda (updated_env : Dict.t pyval) : M unit :=
  print (nl ++ "📤 Updating Lambda function environment variables...") ;;
  update_result <- run (update_argv (env_json_str updated_env)) ;;
  (if Z.eqb (returncode update_result) 0 then ret tt
   else print ("❌ Error updating configuration: " ++ stderr update_result) ;;
        sys_exit 1) ;;
  updated_config <- try AtLoadsUpdate (json_loads rt (stdout update_result)) ;;
  print "✅ Successfully updated Lambda function!" ;;
  print (nl ++ "📋 Updated environment variables:") ;;
  report updated_config.

(** The module, top to bottom. *)
Definition main : M unit :=
  current_env <- get_current_env ;;
  updated_env <- merge_sms current_env ;;
  update_lambda updated_env.
End Script.

(** ** The process, seen from outside *)

Record process : Type := {
  trace : list event;
  exit_status : Z
}.

(** Running the module to its end gives status 0; [sys.exit(c)] gives [c];
    an uncaught exception makes the interpreter print a traceback on
    standard error and exit with status 1. *)
Definition run_script (m : M unit) : process :=
  match m with
  | (t, inr _) => {| trace := t; exit_status := 0 |}
  | (t, inl (SysExit c)) => {| trace := t; exit_status := c |}
  | (t, inl (Raise s)) => {| trace := t ++ [Traceback s]; exit_status := 1 |}
  end.

Definition python (rt : Runtime) : process := run_script (main rt).

(** The lines [print] wrote. *)
Fixpoint stdout_of (t : list event) : list string :=
  match t with
  | [] => []
  | Stdout s :: t' => s :: stdout_of t'
  | _ :: t' => stdout_of t'
  end.

(** The command lines that were started. *)
Fixpoint spawned (t : list event) : list (list string) :=
  match t with
  | [] => []
  | Spawn a :: t' => a :: spawned t'
  | _ :: t' => spawned t'
  end.

(** Whatever reached standard error.  The script has no statement that
    writes there, so only the interpreter's traceback can. *)
Fixpoint stderr_of (t : list event) : list site :=
  match t with
  | [] => []
  | Traceback s :: t' => s :: stderr_of t'
  | _ :: t' => stderr_of t'
  end.

Definition is_stdout (e : event) : bool :=
  match e with
  | Stdout _ => true
  | _ => false
  end.

Definition is_str (v : pyval) : bool :=
  match v with
  | PStr _ => true
  | _ => false
  end.

(** Every value of the dict is a string, as in an Environment Set. *)
Definition all_str (d : Dict.t pyval) : bool :=
  forallb (fun kv => is_str (snd kv)) d.

(** ** The words of the specification *)

(** [w] occurs in [s]. *)
Definition Substring (w s : string) : Prop :=
  exists before after, s = (before ++ w ++ after)%string.

(** The name contains KEY, TOKEN, SECRET or PRIVATE. *)
Definition sensitive_name (key : string) : Prop :=
  exists w, In w ["KEY"; "TOKEN"; "SECRET"; "PRIVATE"] /\ Substring w key.

Definition str_le (a b : string) : Prop := String.leb a b = true.

(** What lines 68-71 leave in [display_value] when [value] is a string. *)
Definition shown_text (key value : string) : string :=
  if sensitive key
  then if Nat.ltb 10 (String.length value)
       then str_prefix 10 value ++ "..."
       else "***"
  else value.

(** ** Runtimes to run the script against

    Stubs of the provider, as in a test harness.  The encoder is
    [json.dumps] with its default separators and [ensure_ascii]; a number is
    written as it was read.  The decoder of a stub is a table: it knows the
    texts it is given, with the value each of them stands for, and rejects
    every other text. *)

Definition dq : string := String (ascii_of_nat 34) EmptyString.

Definition hex_digit (n : nat) : ascii :=
  nth n (list_ascii_of_string "0123456789abcdef") "0"%char.

Definition escape_char (c : ascii) : string :=
  let n := nat_of_ascii c in
  if Nat.eqb n 34 then "\" ++ dq
  else if Nat.eqb n 92 then "\\"
  else if Nat.eqb n 10 then "\n"
  else if Nat.eqb n 13 then "\r"
  else if Nat.eqb n 9 then "\t"
  else if Nat.eqb n 8 then "\b"
  else if Nat.eqb n 12 then "\f"
  else if (Nat.ltb n 32 || Nat.ltb 126 n)%bool then
    "\u00" ++ String (hex_digit (n / 16)) (String (hex_digit (n mod 16)) EmptyString)
  else String c EmptyString.

Fixpoint escape (s : string) : string :=
  match s with
  | EmptyString => EmptyString
  | String c rest => escape_char c ++ escape rest
  end.

Definition quoted (s : string) : string := dq ++ escape s ++ dq.

Fixpoint dumps (v : pyval) : string :=
  match v with
  | PNone => "null"
  | PBool true => "true"
  | PBool false => "false"
  | PNum literal => literal
  | PStr s => quoted s
  | PList items => "[" ++ String.concat ", " (map dumps items) ++ "]"
  | PDict items =>
      "{" ++ String.concat ", "
               (map (fun kv => (quoted (fst kv) ++ ": " ++ dumps (snd kv))%string) items)
          ++ "}"
  end.

(** [str(v)] for [None], the booleans and the numbers.  Lists and dicts,
    which no run below prints, are rendered as JSON. *)
Definition plain_repr (v : pyval) : string :=
  match v with
  | PNone => "None"
  | PBool true => "True"
  | PBool false => "False"
  | PNum literal => literal
  | _ => dumps v
  end.

Definition is_fetch (argv : list string) : bool :=
  match argv with
  | _ :: _ :: command :: _ => String.eqb command "get-function-configuration"
  | _ => false
  end.

(** The provider answers the read call with [fetched] and any other call
    with [updated]; [texts] lists the outputs the decoder accepts. *)
Definition stub (fetched updated : CompletedProcess) (texts : Dict.t pyval) : Runtime :=
  {| subprocess_run := fun argv => if is_fetch argv then fetched else updated;
     json_loads := fun s => Dict.get s texts;
     json_dumps := dumps;
     repr := plain_repr |}.

Definition answer (code : Z) (out err : string) : CompletedProcess :=
  {| returncode := code; stdout := out; stderr := err |}.

(** The remote function has one variable of its own and an old SMS key. *)
Definition remote_env : Dict.t pyval :=
  [("FOO", PStr "bar"); ("SMS_API_KEY", PStr "old-value")].

Definition confirmation (variables : Dict.t pyval) : pyval :=
  PDict [("FunctionName", PStr function_name);
         ("Environment", PDict [("Variables", PDict variables)])].

Definition fetched_ok : CompletedProcess :=
  answer 0 (dumps (PDict remote_env)) EmptyString.

Definition updated_ok : CompletedProcess :=
  answer 0 (dumps (confirmation (merge remote_env sms_config))) EmptyString.

Definition known_texts : Dict.t pyval :=
  [(stdout fetched_ok, PDict remote_env);
   (stdout updated_ok, confirmation (merge remote_env sms_config));
   ("null", PNone)].

Definition access_denied : string :=
  "An error occurred (AccessDeniedException): not authorized".

(** Both calls succeed. *)
Definition rt_ok : Runtime := stub fetched_ok updated_ok known_texts.

(** The read call is refused. *)
Definition rt_fetch_denied : Runtime :=
  stub (answer 254 EmptyString access_denied) updated_ok known_texts.

(** The read call succeeds, the update call is refused. *)
Definition rt_update_denied : Runtime :=
  stub fetched_ok (answer 254 EmptyString access_denied) known_texts.

(** The function has no environment: the query prints [null]. *)
Definition rt_null : Runtime :=
  stub (answer 0 "null" EmptyString) updated_ok known_texts.

Definition is_update (argv : list string) : bool :=
  match argv with
  | _ :: _ :: command :: _ => String.eqb command "update-function-configuration"
  | _ => false
  end.

(** A provider that answers the two calls as [rt_ok] does and refuses any
    other command line. *)
Definition strict_provider (argv : list string) : CompletedProcess :=
  if is_fetch argv then fetched_ok
  else if is_update argv then updated_ok
  else answer 252 EmptyString "aws: error: argument operation: Invalid choice".

(** ** Notions for the statements *)

(** The same library with another provider behind the command line. *)
Definition with_provider (rt : Runtime)
    (provider : list string -> CompletedProcess) : Runtime :=
  {| subprocess_run := provider;
     json_loads := json_loads rt;
     json_dumps := json_dumps rt;
     repr := repr rt |}.

(** The statements never call [sys.exit]. *)
Definition no_sys_exit {A} (m : M A) : Prop :=
  forall code, snd m <> inl (SysExit code).

(** ** Three sentences of the specification, as they are written *)

(** A refused read call: no update call, exit status 1, and the provider's
    error text on standard error, which therefore is not empty. *)
Definition fetch_failure_on_stderr (rt : Runtime) : Prop :=
  returncode (subprocess_run rt fetch_argv) <> 0%Z ->
  spawned (trace (python rt)) = [fetch_argv] /\
  exit_status (python rt) = 1%Z /\
  stderr_of (trace (python rt)) <> [].


(** A [null] answer to the read call makes the merge step fail, and nothing
    is submitted. *)
Definition null_fails_in_merge (rt : Runtime) : Prop :=
  returncode (subprocess_run rt fetch_argv) = 0%Z ->
  json_loads rt (stdout (subprocess_run rt fetch_argv)) = Some PNone ->
  snd (main rt) = inl (Raise AtMerge) /\
  spawned (trace (python rt)) = [fetch_argv].

(** ** More notions and stubs, for the paths the sentences above leave out *)

(** [k in d] *)
Definition has_key {V} (k : string) (d : Dict.t V) : bool :=
  existsb (String.eqb k) (Dict.keys d).

(** The keys of [patch] that [d] does not have, in the order of [patch]. *)
Definition new_keys {V} (d patch : Dict.t V) : list string :=
  filter (fun k => negb (has_key k d)) (Dict.keys patch).

(** The read call succeeds and prints nothing. *)
Definition rt_empty_output : Runtime :=
  stub (answer 0 EmptyString EmptyString) updated_ok known_texts.

(** The read call prints a JSON array, the empty one. *)
Definition rt_list_output : Runtime :=
  stub (answer 0 "[]" EmptyString) updated_ok [("[]", PList [])].

(** The update call succeeds and prints nothing. *)
Definition rt_update_silent : Runtime :=
  stub fetched_ok (answer 0 EmptyString EmptyString) known_texts.

(** A confirmation without the [Environment] field. *)
Definition bare_confirmation : pyval :=
  PDict [("FunctionName", PStr function_name)].

Definition rt_bare_confirmation : Runtime :=
  stub fetched_ok (answer 0 (dumps bare_confirmation) EmptyString)
       ((dumps bare_confirmation, bare_confirmation) :: known_texts).

(** Variables of a confirmation in which a sensitive name holds [null]. *)
Definition mixed_variables : Dict.t pyval :=
  [("ZONE", PStr "south"); ("API_KEY", PNone); ("ALPHA", PStr "a")].

(** The variables of [remote_env] after the merge, listed in another
    order. *)
Definition shuffled_variables : Dict.t pyval :=
  rev (merge remote_env sms_config).

(** A second patch, to merge after the first. *)
Definition later_patch : Dict.t pyval :=
  [("SMS_API_TOKEN", PStr "rotated"); ("SMS_SENDER", PStr "SCRAP")].

(** A part of the script that writes nothing to standard error and, when
    it ends the process itself, does so with status 1. *)
Definition tidy {A} (m : M A) : Prop :=
  stderr_of (fst m) = [] /\
  forall code, snd m = inl (SysExit code) -> code = 1%Z.

(** Line 64. *)
Definition success_line : string := "✅ Successfully updated Lambda function!".

(** * Facts *)

(** ** Dictionaries *)

Module DictFacts.
Import Dict.
Section Lemmas.
Context {V : Type}.
Implicit Types (d src : Dict.t V) (k : string) (v : V).

Lemma get_app k d1 d2 :
  get k (d1 ++ d2) = match get k d1 with Some v => Some v | None => get k d2 end.
Proof.
  induction d1 as [|[k' v'] d1 IH]; simpl; [reflexivity|].
  destruct (String.eqb k k'); [reflexivity | exact IH].
Qed.

Lemma get_None k d : get k d = None <-> ~ In k (keys d).
Proof.
  induction d as [|[k' v'] d IH]; simpl.
  - tauto.
  - destruct (String.eqb_spec k k') as [->|Hne].
    + split; [discriminate | intros H; exfalso; apply H; now left].
    + rewrite IH. split.
      * intros H [Heq|Hin]; [now apply Hne | now apply H].
      * intros H Hin. apply H. now right.
Qed.

Lemma get_Some_In k v d : get k d = Some v -> In (k, v) d.
Proof.
  induction d as [|[k' v'] d IH]; simpl; [discriminate|].
  destruct (String.eqb_spec k k') as [->|Hne].
  - intros [= ->]. now left.
  - intros H. right. now apply IH.
Qed.

Lemma In_keys k v d : In (k, v) d -> In k (keys d).
Proof. intros H. unfold keys. now apply (in_map fst) in H. Qed.

Lemma In_get k v d : wf d -> In (k, v) d -> get k d = Some v.
Proof.
  unfold wf. induction d as [|[k' v'] d IH]; simpl; [tauto|].
  intros Hwf [Heq|Hin].
  - injection Heq as -> ->. now rewrite String.eqb_refl.
  - inversion Hwf as [|? ? Hnotin Hwf']; subst.
    destruct (String.eqb_spec k k') as [->|Hne].
    + exfalso. apply Hnotin. now apply In_keys with v.
    + now apply IH.
Qed.

Lemma wf_rev d : wf d -> wf (rev d).
Proof.
  unfold wf, keys. rewrite map_rev. intros H.
  eapply Permutation_NoDup; [apply Permutation_rev | exact H].
Qed.

(** In a well-formed dict the order of the items does not matter for
    lookup. *)
Lemma get_rev k d : wf d -> get k (rev d) = get k d.
Proof.
  intros Hwf. destruct (get k d) as [v|] eqn:Hget.
  - apply In_get; [now apply wf_rev|].
    apply in_rev. rewrite rev_involutive. now apply get_Some_In.
  - apply get_None. apply get_None in Hget.
    unfold keys in *. rewrite map_rev. intros Hin. apply Hget.
    now apply in_rev.
Qed.

Lemma get_set_same k v d : get k (set k v d) = Some v.
Proof.
  induction d as [|[k' v'] d IH]; simpl.
  - now rewrite String.eqb_refl.
  - destruct (String.eqb_spec k k') as [->|Hne]; simpl.
    + now rewrite String.eqb_refl.
    + destruct (String.eqb_spec k k'); [contradiction | exact IH].
Qed.

Lemma get_set_other k k' v d : k <> k' -> get k (set k' v d) = get k d.
Proof.
  intros Hne. induction d as [|[k0 v0] d IH]; simpl.
  - now destruct (String.eqb_spec k k').
  - destruct (String.eqb_spec k' k0) as [->|Hne0]; simpl.
    + destruct (String.eqb_spec k k0); [contradiction | reflexivity].
    + destruct (String.eqb k k0); [reflexivity | exact IH].
Qed.

Lemma keys_set_old k v d : In k (keys d) -> keys (set k v d) = keys d.
Proof.
  induction d as [|[k' v'] d IH]; simpl; [tauto|].
  intros Hin. destruct (String.eqb_spec k k') as [->|Hne]; simpl.
  - reflexivity.
  - f_equal. apply IH. destruct Hin as [Heq|Hin]; [now subst | exact Hin].
Qed.

Lemma set_new k v d : ~ In k (keys d) -> set k v d = d ++ [(k, v)].
Proof.
  induction d as [|[k' v'] d IH]; simpl; [reflexivity|].
  intros Hnotin. destruct (String.eqb_spec k k') as [->|Hne].
  - exfalso. apply Hnotin. now left.
  - f_equal. apply IH. intros Hin. apply Hnotin. now right.
Qed.

Lemma In_keys_set x k v d : In x (keys (set k v d)) <-> x = k \/ In x (keys d).
Proof.
  induction d as [|[k' v'] d IH]; simpl.
  - intuition.
  - destruct (String.eqb_spec k k') as [->|Hne]; simpl.
    + intuition.
    + rewrite IH. intuition.
Qed.

Lemma wf_set k v d : wf d -> wf (set k v d).
Proof.
  unfold wf. induction d as [|[k' v'] d IH]; simpl; intros Hwf.
  - constructor; [tauto | constructor].
  - inversion Hwf as [|? ? Hnotin Hwf']; subst.
    destruct (String.eqb_spec k k') as [->|Hne]; simpl.
    + now constructor.
    + constructor; [|now apply IH].
      rewrite In_keys_set. intros [Heq|Hin]; [now subst | contradiction].
Qed.

Lemma update_cons d k v src : update d ((k, v) :: src) = update (set k v d) src.
Proof. reflexivity. Qed.

Lemma wf_update d src : wf d -> wf (update d src).
Proof.
  revert d. induction src as [|[k v] src IH]; intros d Hwf; [exact Hwf|].
  rewrite update_cons. apply IH. now apply wf_set.
Qed.

Lemma In_keys_update x d src :
  In x (keys (update d src)) <-> In x (keys d) \/ In x (keys src).
Proof.
  revert d. induction src as [|[k v] src IH]; intros d.
  - simpl. tauto.
  - rewrite update_cons, IH, In_keys_set. simpl. intuition.
Qed.

(** After an update, a key answers with the last value [src] stored for
    it, and with its old value when [src] does not mention it. *)
Lemma get_update k d src :
  get k (update d src) =
  match get k (rev src) with Some v => Some v | None => get k d end.
Proof.
  revert d. induction src as [|[k' v'] src IH]; intros d; [reflexivity|].
  rewrite update_cons, IH. simpl rev. rewrite get_app.
  destruct (get k (rev src)); [reflexivity|]. simpl.
  destruct (String.eqb_spec k k') as [->|Hne].
  - apply get_set_same.
  - now apply get_set_other.
Qed.

(** An update with keys that are all present moves nothing. *)
Lemma keys_update_old d src :
  (forall x, In x (keys src) -> In x (keys d)) -> keys (update d src) = keys d.
Proof.
  revert d. induction src as [|[k v] src IH]; intros d Hsub; [reflexivity|].
  rewrite update_cons. rewrite IH.
  - apply keys_set_old. apply Hsub. now left.
  - intros x Hx. apply In_keys_set. right. apply Hsub. now right.
Qed.

(** Copying a well-formed dict gives the dict back. *)
Lemma update_fresh d src : wf (d ++ src) -> update d src = d ++ src.
Proof.
  revert d. induction src as [|[k v] src IH]; intros d Hwf.
  - simpl. now rewrite app_nil_r.
  - rewrite update_cons. rewrite set_new.
    + replace (d ++ (k, v) :: src) with ((d ++ [(k, v)]) ++ src)
        by (now rewrite <- app_assoc).
      apply IH. now rewrite <- app_assoc.
    + unfold wf, keys in Hwf. rewrite map_app in Hwf. simpl in Hwf.
      apply NoDup_remove_2 in Hwf. intros Hin. apply Hwf.
      apply in_or_app. now left.
Qed.

Lemma copy_wf d : wf d -> update [] d = d.
Proof. intros Hwf. now apply (update_fresh []). Qed.

(** Two dicts with the same keys in the same order and the same answers are
    the same dict. *)
Lemma ext d1 d2 :
  wf d1 -> keys d1 = keys d2 -> (forall k, get k d1 = get k d2) -> d1 = d2.
Proof.
  revert d2. induction d1 as [|[k1 v1] d1 IH]; intros [|[k2 v2] d2] Hwf Hk Hg;
    try discriminate; [reflexivity|].
  simpl in Hk. injection Hk as -> Hk.
  inversion Hwf as [|? ? Hnotin Hwf']; subst.
  assert (v1 = v2) as ->.
  { specialize (Hg k2). simpl in Hg. rewrite String.eqb_refl in Hg. congruence. }
  f_equal. apply IH; [exact Hwf' | exact Hk |].
  intros k. destruct (String.eqb_spec k k2) as [->|Hne].
  - transitivity (@None V); [|symmetry]; apply get_None; [|rewrite <- Hk]; exact Hnotin.
  - specialize (Hg k). simpl in Hg.
    destruct (String.eqb_spec k k2); [contradiction | exact Hg].
Qed.

(** Updating twice with the same source is updating once. *)
Lemma update_twice d src : wf d -> update (update d src) src = update d src.
Proof.
  intros Hwf. apply ext.
  - now apply wf_update, wf_update.
  - apply keys_update_old. intros x Hx. apply In_keys_update. now right.
  - intros k. rewrite !get_update. now destruct (get k (rev src)).
Qed.

Lemma wf_nil : wf (V := V) [].
Proof. constructor. Qed.

Lemma wf_unpack2 (a b : Dict.t V) : wf (unpack2 a b).
Proof. unfold unpack2. apply wf_update, wf_update, wf_nil. Qed.

End Lemmas.
End DictFacts.

(** ** Strings *)


Lemma prefix_append (w rest : string) : String.prefix w (w ++ rest) = true.
Proof.
  induction w as [|c w IH]; simpl.
  - now destruct rest.
  - destruct (ascii_dec c c) as [_|Hne]; [exact IH | contradiction].
Qed.

Lemma prefix_split (w s : string) :
  String.prefix w s = true -> exists rest, s = (w ++ rest)%string.
Proof.
  revert s. induction w as [|c w IH]; intros s H.
  - now exists s.
  - destruct s as [|c' s]; simpl in H; [discriminate|].
    destruct (ascii_dec c c') as [->|]; [|discriminate].
    destruct (IH s H) as [rest ->]. now exists rest.
Qed.

Lemma contains_unfold (w s : string) :
  contains w s =
  (String.prefix w s
   || match s with
      | EmptyString => false
      | String _ rest => contains w rest
      end)%bool.
Proof. now destruct s. Qed.

(** [contains] is Python's [in] on strings. *)
Lemma contains_iff (w s : string) : contains w s = true <-> Substring w s.
Proof.
  split.
  - induction s as [|c s IH]; rewrite contains_unfold; intros H;
      apply orb_true_iff in H; destruct H as [H|H]; try discriminate.
    + apply prefix_split in H. destruct H as [rest ->].
      now exists EmptyString, rest.
    + apply prefix_split in H. destruct H as [rest ->].
      now exists EmptyString, rest.
    + destruct (IH H) as (before & after & ->).
      now exists (String c before), after.
  - intros (before & after & ->).
    induction before as [|c before IH].
    + rewrite contains_unfold. simpl append. now rewrite prefix_append.
    + change (contains w (String c (before ++ w ++ after)) = true).
      rewrite contains_unfold, IH. apply orb_true_r.
Qed.

Lemma sensitive_iff (key : string) : sensitive key = true <-> sensitive_name key.
Proof.
  unfold sensitive, sensitive_name. rewrite !orb_true_iff, !contains_iff. split.
  - intros [[[H|H]|H]|H]; eexists; (split; [|exact H]); simpl; tauto.
  - intros (w & Hin & H). simpl in Hin.
    destruct Hin as [<-|[<-|[<-|[<-|[]]]]]; tauto.
Qed.

Lemma sensitive_false_iff (key : string) :
  sensitive key = false <-> ~ sensitive_name key.
Proof.
  rewrite <- sensitive_iff. now destruct (sensitive key).
Qed.

(** [s[:n]] is the first [n] characters when there are that many. *)
Lemma str_prefix_split (n : nat) (s : string) :
  n <= String.length s ->
  exists rest, s = (str_prefix n s ++ rest)%string /\ String.length (str_prefix n s) = n.
Proof.
  unfold str_prefix. revert s. induction n as [|n IH]; intros s Hn.
  - exists s. now destruct s.
  - destruct s as [|c s]; simpl in Hn; [lia|].
    destruct (IH s) as (rest & Hs & Hl); [lia|].
    exists rest. simpl. split; [now rewrite <- Hs | now rewrite Hl].
Qed.


(** ** The order of strings, and sorting *)

Lemma ascii_compare_lt_trans (a b c : ascii) :
  Ascii.compare a b = Lt -> Ascii.compare b c = Lt -> Ascii.compare a c = Lt.
Proof.
  unfold Ascii.compare. rewrite !N.compare_lt_iff. apply N.lt_trans.
Qed.

Lemma compare_lt_trans (a b c : string) :
  String.compare a b = Lt -> String.compare b c = Lt -> String.compare a c = Lt.
Proof.
  revert b c. induction a as [|x a IH]; intros [|y b] [|z c]; simpl;
    try discriminate; try reflexivity.
  destruct (Ascii.compare x y) eqn:Hxy; try discriminate;
    destruct (Ascii.compare y z) eqn:Hyz; try discriminate; intros H1 H2.
  - apply Ascii.compare_eq_iff in Hxy, Hyz. subst.
    replace (Ascii.compare z z) with Eq
      by (symmetry; unfold Ascii.compare; apply N.compare_refl).
    now apply IH with b.
  - apply Ascii.compare_eq_iff in Hxy. subst. now rewrite Hyz.
  - apply Ascii.compare_eq_iff in Hyz. subst. now rewrite Hxy.
  - now rewrite (ascii_compare_lt_trans _ _ _ Hxy Hyz).
Qed.

Lemma str_le_trans (a b c : string) : str_le a b -> str_le b c -> str_le a c.
Proof.
  unfold str_le, String.leb.
  destruct (String.compare a b) eqn:Hab; try discriminate;
    destruct (String.compare b c) eqn:Hbc; try discriminate; intros _ _.
  - apply String.compare_eq_iff in Hab. subst. now rewrite Hbc.
  - apply String.compare_eq_iff in Hab. subst. now rewrite Hbc.
  - apply String.compare_eq_iff in Hbc. subst. now rewrite Hab.
  - now rewrite (compare_lt_trans _ _ _ Hab Hbc).
Qed.

Lemma str_le_total (a b : string) : str_le a b \/ str_le b a.
Proof. apply String.leb_total. Qed.

Lemma insert_sorted_perm (k : string) (l : list string) :
  Permutation (k :: l) (insert_sorted k l).
Proof.
  induction l as [|h t IH]; simpl; [reflexivity|].
  destruct (String.leb k h); [reflexivity|].
  rewrite perm_swap. now apply perm_skip.
Qed.

Lemma sorted_perm (l : list string) : Permutation l (sorted l).
Proof.
  induction l as [|h t IH]; simpl; [reflexivity|].
  rewrite <- insert_sorted_perm. now apply perm_skip.
Qed.

Lemma insert_sorted_ordered (k : string) (l : list string) :
  StronglySorted str_le l -> StronglySorted str_le (insert_sorted k l).
Proof.
  induction 1 as [|h t Ht IH Hall]; simpl.
  - repeat constructor.
  - destruct (String.leb k h) eqn:Hkh.
    + constructor; [now constructor|].
      constructor; [exact Hkh|].
      eapply Forall_impl; [|exact Hall]. intros x Hx.
      now apply str_le_trans with h.
    + constructor; [exact IH|].
      eapply Permutation_Forall; [apply insert_sorted_perm|].
      constructor; [|exact Hall].
      destruct (str_le_total k h) as [Hle|Hle]; [|exact Hle].
      unfold str_le in Hle. congruence.
Qed.

Lemma sorted_ordered (l : list string) : StronglySorted str_le (sorted l).
Proof.
  induction l as [|h t IH]; simpl; [constructor|].
  now apply insert_sorted_ordered.
Qed.

(** There is one sorted arrangement of a list of strings, so [sorted]
    stands for any sorting algorithm. *)
Lemma sorted_unique (l1 l2 : list string) :
  StronglySorted str_le l1 -> StronglySorted str_le l2 ->
  Permutation l1 l2 -> l1 = l2.
Proof.
  intros H1. revert l2. induction H1 as [|a l1 Hs1 IH Hall1]; intros l2 H2 Hp.
  - apply Permutation_nil in Hp. now subst.
  - destruct H2 as [|b l2 Hs2 Hall2].
    + symmetry in Hp. now apply Permutation_nil in Hp.
    + assert (a = b) as ->.
      { assert (Ha : In a (b :: l2))
          by (eapply Permutation_in; [exact Hp | now left]).
        assert (Hb : In b (a :: l1))
          by (eapply Permutation_in; [symmetry; exact Hp | now left]).
        destruct Ha as [->|Ha]; [reflexivity|].
        destruct Hb as [->|Hb]; [reflexivity|].
        rewrite Forall_forall in Hall1, Hall2.
        apply String.leb_antisym; [now apply Hall1 | now apply Hall2]. }
      f_equal. apply IH; [exact Hs2|]. now apply Permutation_cons_inv in Hp.
Qed.

(** ** The merge *)

Ltac solve_wf :=
  unfold Dict.wf; simpl; repeat constructor; simpl; intuition discriminate.

Lemma merge_is_update (E P : Dict.t pyval) :
  Dict.wf E -> merge E P = Dict.update E P.
Proof.
  intros HE. unfold merge, Dict.unpack2. now rewrite DictFacts.copy_wf.
Qed.

Lemma merge_get_patch (E P : Dict.t pyval) (k : string) (v : pyval) :
  Dict.wf E -> Dict.wf P ->
  Dict.get k P = Some v -> Dict.get k (merge E P) = Some v.
Proof.
  intros HE HP Hk. rewrite (merge_is_update E P HE).
  now rewrite DictFacts.get_update, DictFacts.get_rev, Hk.
Qed.

Lemma merge_get_rest (E P : Dict.t pyval) (k : string) :
  Dict.wf E -> Dict.wf P ->
  Dict.get k P = None -> Dict.get k (merge E P) = Dict.get k E.
Proof.
  intros HE HP Hk. rewrite (merge_is_update E P HE).
  now rewrite DictFacts.get_update, DictFacts.get_rev, Hk.
Qed.

Lemma merge_keys (E P : Dict.t pyval) (k : string) :
  Dict.wf E ->
  In k (Dict.keys (merge E P)) <-> In k (Dict.keys E) \/ In k (Dict.keys P).
Proof.
  intros HE. rewrite (merge_is_update E P HE). apply DictFacts.In_keys_update.
Qed.

Lemma merge_wf (E P : Dict.t pyval) : Dict.wf (merge E P).
Proof. apply DictFacts.wf_unpack2. Qed.

(** C1.  For dicts [E] and [P], [{**E, **P}] is the union of the two in
    which [P] wins: a key of [P] has [P]'s value, any other key has what
    [E] has for it (its value, or nothing), the keys of the result are
    the keys of [E] and the keys of [P] and no other, and the result is again
    a dict.  The merge is a function of [E] and [P] alone: it reads no
    other state and gives rise to no event. *)
Theorem merge_left_biased_union (E P : Dict.t pyval) :
  Dict.wf E -> Dict.wf P ->
  (forall k v, Dict.get k P = Some v -> Dict.get k (merge E P) = Some v) /\
  (forall k, Dict.get k P = None -> Dict.get k (merge E P) = Dict.get k E) /\
  (forall k, In k (Dict.keys (merge E P)) <-> In k (Dict.keys E) \/ In k (Dict.keys P)) /\
  Dict.wf (merge E P).
Proof.
  intros HE HP. split; [|split; [|split]].
  - intros k v. now apply merge_get_patch.
  - intros k. now apply merge_get_rest.
  - intros k. now apply merge_keys.
  - apply merge_wf.
Qed.

Lemma merge_left_biased_union_witness :
  Dict.wf remote_env /\ Dict.wf sms_config /\
  (forall k v, Dict.get k sms_config = Some v ->
     Dict.get k (merge remote_env sms_config) = Some v) /\
  (forall k, Dict.get k sms_config = None ->
     Dict.get k (merge remote_env sms_config) = Dict.get k remote_env) /\
  (forall k, In k (Dict.keys (merge remote_env sms_config)) <->
     In k (Dict.keys remote_env) \/ In k (Dict.keys sms_config)) /\
  Dict.wf (merge remote_env sms_config).
Proof.
  assert (HE : Dict.wf remote_env) by solve_wf.
  assert (HP : Dict.wf sms_config) by solve_wf.
  split; [exact HE|]. split; [exact HP|].
  exact (merge_left_biased_union remote_env sms_config HE HP).
Defined.

(** C5.  Merging the same patch a second time changes nothing:
    [merge (merge E P) P = merge E P], items and order alike. *)
Theorem merge_idempotent (E P : Dict.t pyval) :
  merge (merge E P) P = merge E P.
Proof.
  unfold merge at 1. unfold Dict.unpack2.
  rewrite DictFacts.copy_wf by apply DictFacts.wf_unpack2.
  unfold merge, Dict.unpack2.
  apply DictFacts.update_twice, DictFacts.wf_update, DictFacts.wf_nil.
Qed.

(** The scenarios A, B and C of the specification. *)
Example merge_scenarios :
  merge [] sms_config = sms_config /\
  merge [("FOO", PStr "bar")] sms_config = ("FOO", PStr "bar") :: sms_config /\
  Dict.get "SMS_API_KEY" (merge remote_env sms_config)
    = Some (PStr "/BR2+k;L(-aPKA@r%5SO*GzcCm8&Hg6o").
Proof. repeat split. Qed.

(** ** Masking *)

Section Masking.
Variable rt : Runtime.

Lemma display_value_str (key value : string) :
  display_value rt key (PStr value) = ret (PStr (shown_text key value)).
Proof.
  unfold display_value, shown_text. destruct (sensitive key); [|reflexivity].
  simpl. now destruct (Nat.ltb 10 (String.length value)).
Qed.

(** C9.  The masking rule on a string value: under a sensitive name, the
    first 10 characters and then three dots when the value has more than 10
    characters, and three stars when it has 10 or fewer; under any other
    name the value itself, whatever its length.  The line printed is the
    key, a colon and that text. *)
Theorem display_value_exact (key value : string) :
  (sensitive_name key -> 10 < String.length value ->
   exists head rest,
     value = (head ++ rest)%string /\ String.length head = 10 /\
     display_value rt key (PStr value) = ret (PStr (head ++ "..."))) /\
  (sensitive_name key -> String.length value <= 10 ->
   display_value rt key (PStr value) = ret (PStr "***")) /\
  (~ sensitive_name key ->
   display_value rt key (PStr value) = ret (PStr value)) /\
  (forall text,
   report_line rt key (PStr text) = ("   ✅ " ++ key ++ ": " ++ text)%string).
Proof.
  rewrite display_value_str. unfold shown_text. repeat split.
  - intros Hs Hlen. apply sensitive_iff in Hs. rewrite Hs.
    apply Nat.ltb_lt in Hlen as Hlt. rewrite Hlt.
    destruct (str_prefix_split 10 value) as (rest & Hv & Hl); [lia|].
    now exists (str_prefix 10 value), rest.
  - intros Hs Hlen. apply sensitive_iff in Hs. rewrite Hs.
    assert (Hge : Nat.ltb 10 (String.length value) = false)
      by (apply Nat.ltb_ge; exact Hlen).
    now rewrite Hge.
  - intros Hs. apply sensitive_false_iff in Hs. now rewrite Hs.
Qed.

End Masking.

Lemma display_value_exact_witness :
  (sensitive_name "SMS_API_KEY" /\
   10 < String.length "/BR2+k;L(-aPKA@r%5SO*GzcCm8&Hg6o" /\
   exists head rest,
     "/BR2+k;L(-aPKA@r%5SO*GzcCm8&Hg6o" = (head ++ rest)%string /\
     String.length head = 10 /\
     display_value rt_ok "SMS_API_KEY" (PStr "/BR2+k;L(-aPKA@r%5SO*GzcCm8&Hg6o")
       = ret (PStr (head ++ "..."))) /\
  (sensitive_name "MY_TOKEN" /\ String.length "short" <= 10 /\
   display_value rt_ok "MY_TOKEN" (PStr "short") = ret (PStr "***")) /\
  (~ sensitive_name "FOO" /\
   display_value rt_ok "FOO" (PStr "bar") = ret (PStr "bar")).
Proof.
  assert (H1 : sensitive_name "SMS_API_KEY") by (now apply sensitive_iff).
  assert (H2 : sensitive_name "MY_TOKEN") by (now apply sensitive_iff).
  assert (H3 : ~ sensitive_name "FOO") by (now apply sensitive_false_iff).
  assert (L1 : 10 < String.length "/BR2+k;L(-aPKA@r%5SO*GzcCm8&Hg6o") by (simpl; lia).
  assert (L2 : String.length "short" <= 10) by (simpl; lia).
  split; [|split].
  - split; [exact H1|]. split; [exact L1|].
    exact (proj1 (display_value_exact rt_ok "SMS_API_KEY" _) H1 L1).
  - split; [exact H2|]. split; [exact L2|].
    exact (proj1 (proj2 (display_value_exact rt_ok "MY_TOKEN" _)) H2 L2).
  - split; [exact H3|].
    exact (proj1 (proj2 (proj2 (display_value_exact rt_ok "FOO" "bar"))) H3).
Defined.



(** ** Traces *)

Lemma spawned_app (t1 t2 : list event) :
  spawned (t1 ++ t2) = spawned t1 ++ spawned t2.
Proof.
  induction t1 as [|[text|argv|s] t1 IH]; simpl; [reflexivity | | | ]; now rewrite IH.
Qed.

Lemma printed_only (t : list event) :
  forallb is_stdout t = true -> spawned t = [] /\ stderr_of t = [].
Proof.
  induction t as [|[text|argv|s] t IH]; simpl; try discriminate; auto.
Qed.

(** ** The monad *)

Lemma bind_ret {A B} (a : A) (f : A -> M B) : bind (ret a) f = f a.
Proof. unfold bind, ret. now destruct (f a). Qed.

Lemma bind_value {A B} (t : list event) (a : A) (f : A -> M B) :
  bind (t, inr a) f = (t ++ fst (f a), snd (f a)).
Proof. unfold bind. now destruct (f a). Qed.

Ltac script_steps :=
  cbv beta iota zeta
      delta [main get_current_env merge_sms update_lambda run print try ret
             raise sys_exit bind python run_script];
  cbn [app trace exit_status fst snd Z.eqb].

Ltac follow H := rewrite H; script_steps.

(** ** The parts of the script, path by path *)

Section Paths.
Variable rt : Runtime.

Local Abbreviation result := (subprocess_run rt fetch_argv).
Local Abbreviation update_result env :=
  (subprocess_run rt (update_argv (env_json_str rt env))).

Lemma main_fetch_refused :
  returncode result <> 0%Z ->
  main rt =
  ([Stdout "🔍 Fetching current environment variables from scrapmate-node-api-production...";
    Spawn fetch_argv;
    Stdout ("❌ Error fetching current configuration: " ++ stderr result)],
   inl (SysExit 1)).
Proof.
  intros Hrc. apply Z.eqb_neq in Hrc. script_steps. now rewrite Hrc.
Qed.

Lemma main_fetch_undecodable :
  returncode result = 0%Z ->
  json_loads rt (stdout result) = None ->
  main rt =
  ([Stdout "🔍 Fetching current environment variables from scrapmate-node-api-production...";
    Spawn fetch_argv],
   inl (Raise AtLoadsFetch)).
Proof.
  intros Hrc Hv. script_steps. follow Hrc. now follow Hv.
Qed.

Lemma main_no_len (v : pyval) :
  returncode result = 0%Z ->
  json_loads rt (stdout result) = Some v ->
  py_len v = None ->
  main rt =
  ([Stdout "🔍 Fetching current environment variables from scrapmate-node-api-production...";
    Spawn fetch_argv],
   inl (Raise AtLenEnv)).
Proof.
  intros Hrc Hv Hlen. script_steps. follow Hrc. follow Hv. now follow Hlen.
Qed.

Lemma main_not_mapping (v : pyval) (n : nat) :
  returncode result = 0%Z ->
  json_loads rt (stdout result) = Some v ->
  py_len v = Some n ->
  as_mapping v = None ->
  main rt =
  ([Stdout "🔍 Fetching current environment variables from scrapmate-node-api-production...";
    Spawn fetch_argv;
    Stdout ("✅ Current environment variables: " ++ str_of_nat n ++ " variables")],
   inl (Raise AtMerge)).
Proof.
  intros Hrc Hv Hlen Hmap. script_steps. follow Hrc. follow Hv. follow Hlen.
  now follow Hmap.
Qed.

(** With a dict in hand the script merges and goes on to the update. *)
Lemma main_merged (E : Dict.t pyval) :
  returncode result = 0%Z ->
  json_loads rt (stdout result) = Some (PDict E) ->
  main rt =
  ([Stdout "🔍 Fetching current environment variables from scrapmate-node-api-production...";
    Spawn fetch_argv;
    Stdout ("✅ Current environment variables: "
            ++ str_of_nat (List.length E) ++ " variables");
    Stdout ("✅ Updated environment variables: "
            ++ str_of_nat (List.length (merge E sms_config)) ++ " variables");
    Stdout "   Added SMS configuration variables"]
   ++ fst (update_lambda rt (merge E sms_config)),
   snd (update_lambda rt (merge E sms_config))).
Proof.
  intros Hrc Hv. unfold main, get_current_env, merge_sms.
  cbv beta iota zeta delta [run print try ret raise sys_exit bind].
  rewrite Hrc, Hv. cbn [Z.eqb py_len as_mapping app].
  now destruct (update_lambda rt (merge E sms_config)).
Qed.

Lemma update_lambda_refused (env : Dict.t pyval) :
  returncode (update_result env) <> 0%Z ->
  update_lambda rt env =
  ([Stdout (nl ++ "📤 Updating Lambda function environment variables...");
    Spawn (update_argv (env_json_str rt env));
    Stdout ("❌ Error updating configuration: " ++ stderr (update_result env))],
   inl (SysExit 1)).
Proof.
  intros Hrc. apply Z.eqb_neq in Hrc. script_steps. now rewrite Hrc.
Qed.

Lemma update_lambda_undecodable (env : Dict.t pyval) :
  returncode (update_result env) = 0%Z ->
  json_loads rt (stdout (update_result env)) = None ->
  update_lambda rt env =
  ([Stdout (nl ++ "📤 Updating Lambda function environment variables...");
    Spawn (update_argv (env_json_str rt env))],
   inl (Raise AtLoadsUpdate)).
Proof.
  intros Hrc Hv. script_steps. follow Hrc. now follow Hv.
Qed.

Lemma update_lambda_reported (env : Dict.t pyval) (updated_config : pyval) :
  returncode (update_result env) = 0%Z ->
  json_loads rt (stdout (update_result env)) = Some updated_config ->
  update_lambda rt env =
  ([Stdout (nl ++ "📤 Updating Lambda function environment variables...");
    Spawn (update_argv (env_json_str rt env));
    Stdout "✅ Successfully updated Lambda function!";
    Stdout (nl ++ "📋 Updated environment variables:")]
   ++ fst (report rt updated_config),
   snd (report rt updated_config)).
Proof.
  intros Hrc Hv. unfold update_lambda.
  cbv beta iota zeta delta [run print try ret raise sys_exit bind].
  rewrite Hrc, Hv. cbn [Z.eqb app].
  now destruct (report rt updated_config).
Qed.
End Paths.

(** ** The report *)

Section ReportFacts.
Variable rt : Runtime.

Lemma display_value_silent (key : string) (v : pyval) :
  fst (display_value rt key v) = [].
Proof.
  unfold display_value. destruct (sensitive key); [|reflexivity].
  destruct (py_len v) as [n|]; [|reflexivity].
  cbn [try]. rewrite bind_ret.
  destruct (Nat.ltb 10 n); [|reflexivity].
  now destruct (py_slice10 v).
Qed.

Lemma bind_prints_only {A B} (m : M A) (f : A -> M B) :
  forallb is_stdout (fst m) = true ->
  (forall a, forallb is_stdout (fst (f a)) = true) ->
  forallb is_stdout (fst (bind m f)) = true.
Proof.
  destruct m as [t [h|a]]; intros Ht Hf; [exact Ht|].
  rewrite bind_value. cbn [fst] in *. rewrite forallb_app, Ht. apply Hf.
Qed.

Lemma for_each_prints_only {A} (l : list A) (body : A -> M unit) :
  (forall x, forallb is_stdout (fst (body x)) = true) ->
  forallb is_stdout (fst (for_each l body)) = true.
Proof.
  intros Hbody. induction l as [|x l IH]; [reflexivity|].
  cbn [for_each]. apply bind_prints_only; [apply Hbody | intros _; exact IH].
Qed.

Lemma try_silent {A} (s : site) (o : option A) : fst (try s o) = [].
Proof. now destruct o. Qed.

(** The report only prints. *)
Lemma report_prints_only (updated_config : pyval) :
  forallb is_stdout (fst (report rt updated_config)) = true.
Proof.
  unfold report.
  repeat (apply bind_prints_only; [now rewrite try_silent | intros ?]).
  apply for_each_prints_only. intros key.
  apply bind_prints_only; [now rewrite try_silent | intros value].
  apply bind_prints_only; [now rewrite display_value_silent | intros shown].
  reflexivity.
Qed.

Lemma get_of_key {V} (k : string) (d : Dict.t V) :
  In k (Dict.keys d) -> exists v, Dict.get k d = Some v.
Proof.
  intros Hin. destruct (Dict.get k d) as [v|] eqn:Hget; [now exists v|].
  apply DictFacts.get_None in Hget. contradiction.
Qed.

Lemma all_str_get (V : Dict.t pyval) (k : string) :
  all_str V = true -> In k (Dict.keys V) ->
  exists s, Dict.get k V = Some (PStr s).
Proof.
  intros Hall Hin. destruct (get_of_key k V Hin) as [v Hv].
  unfold all_str in Hall. rewrite forallb_forall in Hall.
  specialize (Hall _ (DictFacts.get_Some_In _ _ _ Hv)). cbn [snd] in Hall.
  destruct v; try discriminate. now exists s.
Qed.

Lemma for_each_report (V : Dict.t pyval) (l : list string) :
  (forall k, In k l -> exists s, Dict.get k V = Some (PStr s)) ->
  exists lines,
    for_each l (fun key =>
      value <- try AtValue (py_getitem (PDict V) key) ;;
      shown <- display_value rt key value ;;
      print (report_line rt key shown))
    = (map Stdout lines, inr tt) /\
    Forall2 (fun key line =>
               exists value, Dict.get key V = Some (PStr value) /\
                 line = ("   ✅ " ++ key ++ ": " ++ shown_text key value)%string)
            l lines.
Proof.
  induction l as [|k l IH]; intros Hl.
  - exists []. split; [reflexivity | constructor].
  - destruct IH as (lines & Hrun & Hlines); [intros x Hx; apply Hl; now right|].
    destruct (Hl k) as [s Hs]; [now left|].
    exists (("   ✅ " ++ k ++ ": " ++ shown_text k s)%string :: lines). split.
    + assert (Hs' : py_getitem (PDict V) k = Some (PStr s)) by exact Hs.
      cbn [for_each]. rewrite Hrun, Hs'.
      change (try AtValue (Some (PStr s))) with (ret (PStr s)).
      now rewrite bind_ret, display_value_str, bind_ret.
    + constructor; [now exists s | exact Hlines].
Qed.

Lemma Forall2_In_left {A B} (R : A -> B -> Prop) (l : list A) (l' : list B) (x : A) :
  Forall2 R l l' -> In x l -> exists y, In y l' /\ R x y.
Proof.
  induction 1 as [|a b l l' Hab Hrest IH]; intros Hin; [contradiction|].
  destruct Hin as [->|Hin].
  - exists b. split; [now left | exact Hab].
  - destruct (IH Hin) as (y & Hy & Hxy). exists y. split; [now right | exact Hxy].
Qed.

(** C7.  On a confirmation whose variables are strings, the report prints
    exactly one line for each item of [Environment.Variables], as many
    lines as there are variables, in the order of the sorted keys, and ends
    normally.  Every key of the dict has its line, made of the key and the
    display value of the value stored under it.  The sorted keys are the
    keys of the items themselves, rearranged in ascending order; there is
    one such arrangement, so the report is determined by the
    confirmation. *)
Theorem report_in_sorted_key_order (updated_config environment : pyval)
    (V : Dict.t pyval) :
  py_getitem updated_config "Environment" = Some environment ->
  py_getitem environment "Variables" = Some (PDict V) ->
  all_str V = true ->
  exists lines,
    report rt updated_config = (map Stdout lines, inr tt) /\
    List.length lines = List.length V /\
    Forall2 (fun key line =>
               exists value, Dict.get key V = Some (PStr value) /\
                 line = ("   ✅ " ++ key ++ ": " ++ shown_text key value)%string)
            (sorted (map fst V)) lines /\
    (forall key value,
       In (key, value) V ->
       exists text,
         Dict.get key V = Some (PStr text) /\
         In ("   ✅ " ++ key ++ ": " ++ shown_text key text)%string lines) /\
    (NoDup (map fst V) ->
     forall key value,
       In (key, value) V ->
       exists text,
         value = PStr text /\
         In ("   ✅ " ++ key ++ ": " ++ shown_text key text)%string lines) /\
    StronglySorted str_le (sorted (map fst V)) /\
    Permutation (map fst V) (sorted (map fst V)) /\
    (forall ks, StronglySorted str_le ks -> Permutation (map fst V) ks ->
                ks = sorted (map fst V)).
Proof.
  intros Henv Hvars Hall.
  destruct (for_each_report V (sorted (map fst V))) as (lines & Hrun & Hlines).
  { intros k Hk. apply all_str_get; [exact Hall|].
    eapply Permutation_in; [symmetry; apply sorted_perm | exact Hk]. }
  assert (Hitem : forall key value,
            In (key, value) V ->
            exists text,
              Dict.get key V = Some (PStr text) /\
              In ("   ✅ " ++ key ++ ": " ++ shown_text key text)%string lines).
  { intros key value Hin.
    assert (Hkey : In key (sorted (map fst V))).
    { eapply Permutation_in; [apply sorted_perm|].
      now apply (in_map fst) in Hin. }
    destruct (Forall2_In_left _ _ _ _ Hlines Hkey) as (line & Hline & text & Hget & ->).
    now exists text. }
  exists lines. repeat apply conj.
  - unfold report. rewrite Henv.
    change (try AtEnvironment (Some environment)) with (ret environment).
    rewrite bind_ret, Hvars.
    change (try AtVariables (Some (PDict V))) with (ret (PDict V)).
    rewrite bind_ret.
    change (try AtKeys (py_keys (PDict V))) with (ret (map fst V)).
    rewrite bind_ret. exact Hrun.
  - rewrite <- (Forall2_length Hlines).
    rewrite <- (Permutation_length (sorted_perm (map fst V))).
    apply length_map.
  - exact Hlines.
  - exact Hitem.
  - intros Hnodup key value Hin.
    destruct (Hitem key value Hin) as (text & Hget & Hline).
    exists text. split; [|exact Hline].
    pose proof (DictFacts.In_get key value V Hnodup Hin) as Hget'.
    congruence.
  - apply sorted_ordered.
  - apply sorted_perm.
  - intros ks Hks Hperm. apply sorted_unique; [exact Hks | apply sorted_ordered |].
    rewrite <- Hperm. apply sorted_perm.
Qed.
End ReportFacts.

Lemma report_in_sorted_key_order_witness :
  py_getitem (confirmation (merge remote_env sms_config)) "Environment"
    = Some (PDict [("Variables", PDict (merge remote_env sms_config))]) /\
  py_getitem (PDict [("Variables", PDict (merge remote_env sms_config))]) "Variables"
    = Some (PDict (merge remote_env sms_config)) /\
  all_str (merge remote_env sms_config) = true /\
  NoDup (map fst (merge remote_env sms_config)) /\
  In ("SMS_API_KEY", PStr "/BR2+k;L(-aPKA@r%5SO*GzcCm8&Hg6o")
     (merge remote_env sms_config) /\
  report rt_ok (confirmation (merge remote_env sms_config))
    = (map Stdout
         ["   ✅ FOO: bar";
          "   ✅ SMS_API_ENITYID: 1701173389563945545";
          "   ✅ SMS_API_KEY: /BR2+k;L(-...";
          "   ✅ SMS_API_TOKEN: EVLZ8267TM...";
          "   ✅ SMS_API_URL_NEW: http://4sms.alp-ts.com/api/sms/v1.0/send-sms";
          "   ✅ SMS_HEADER_CENTER_ID: SCRPMT"]%string,
       inr tt) /\
  exists lines,
    report rt_ok (confirmation (merge remote_env sms_config))
      = (map Stdout lines, inr tt) /\
    List.length lines = List.length (merge remote_env sms_config) /\
    Forall2 (fun key line =>
               exists value,
                 Dict.get key (merge remote_env sms_config) = Some (PStr value) /\
                 line = ("   ✅ " ++ key ++ ": " ++ shown_text key value)%string)
            (sorted (map fst (merge remote_env sms_config))) lines /\
    (forall key value,
       In (key, value) (merge remote_env sms_config) ->
       exists text,
         Dict.get key (merge remote_env sms_config) = Some (PStr text) /\
         In ("   ✅ " ++ key ++ ": " ++ shown_text key text)%string lines) /\
    (NoDup (map fst (merge remote_env sms_config)) ->
     forall key value,
       In (key, value) (merge remote_env sms_config) ->
       exists text,
         value = PStr text /\
         In ("   ✅ " ++ key ++ ": " ++ shown_text key text)%string lines) /\
    StronglySorted str_le (sorted (map fst (merge remote_env sms_config))) /\
    Permutation (map fst (merge remote_env sms_config))
                (sorted (map fst (merge remote_env sms_config))) /\
    (forall ks, StronglySorted str_le ks ->
                Permutation (map fst (merge remote_env sms_config)) ks ->
                ks = sorted (map fst (merge remote_env sms_config))).
Proof.
  split; [reflexivity|]. split; [reflexivity|]. split; [reflexivity|].
  split; [exact (merge_wf remote_env sms_config)|].
  split; [do 1 right; now left|].
  split; [reflexivity|].
  exact (report_in_sorted_key_order rt_ok
           (confirmation (merge remote_env sms_config))
           (PDict [("Variables", PDict (merge remote_env sms_config))])
           (merge remote_env sms_config) eq_refl eq_refl eq_refl).
Defined.

(** ** The whole run *)

Lemma sms_config_wf : Dict.wf sms_config.
Proof. solve_wf. Qed.

(** The merge, item by item. *)
Lemma merge_items (E P : Dict.t pyval) :
  Dict.wf E -> Dict.wf P ->
  (forall k v, In (k, v) P -> In (k, v) (merge E P)) /\
  (forall k v, In (k, v) E -> (forall v', ~ In (k, v') P) ->
               In (k, v) (merge E P)) /\
  (forall k v, In (k, v) E -> exists v', In (k, v') (merge E P)) /\
  (forall k v, In (k, v) (merge E P) -> In (k, v) P \/ In (k, v) E).
Proof.
  intros HE HP.
  assert (Hpatch : forall k v, In (k, v) P -> In (k, v) (merge E P)).
  { intros k v Hin. apply DictFacts.get_Some_In.
    apply merge_get_patch; [exact HE | exact HP |].
    now apply DictFacts.In_get. }
  assert (Hrest : forall k v, In (k, v) E -> Dict.get k P = None ->
                              In (k, v) (merge E P)).
  { intros k v Hin Hno. apply DictFacts.get_Some_In.
    rewrite (merge_get_rest E P k HE HP Hno). now apply DictFacts.In_get. }
  repeat apply conj.
  - exact Hpatch.
  - intros k v Hin Hnot. apply Hrest; [exact Hin|].
    destruct (Dict.get k P) as [v'|] eqn:Hget; [|reflexivity].
    destruct (Hnot v'). now apply DictFacts.get_Some_In.
  - intros k v Hin. destruct (Dict.get k P) as [v'|] eqn:Hget.
    + exists v'. apply Hpatch. now apply DictFacts.get_Some_In.
    + exists v. now apply Hrest.
  - intros k v Hin.
    pose proof (DictFacts.In_get k v _ (merge_wf E P) Hin) as Hget.
    destruct (Dict.get k P) as [v'|] eqn:HP'.
    + left. rewrite (merge_get_patch E P k v' HE HP HP') in Hget.
      injection Hget as <-. now apply DictFacts.get_Some_In.
    + right. rewrite (merge_get_rest E P k HE HP HP') in Hget.
      now apply DictFacts.get_Some_In.
Qed.

Section Runs.
Variable rt : Runtime.

Local Abbreviation result := (subprocess_run rt fetch_argv).
Local Abbreviation update_result env :=
  (subprocess_run rt (update_argv (env_json_str rt env))).

Lemma spawned_run_script (m : M unit) :
  spawned (trace (run_script m)) = spawned (fst m).
Proof.
  destruct m as [t [[c|s]|u]]; cbn [run_script trace fst]; try reflexivity.
  rewrite spawned_app. cbn [spawned]. apply app_nil_r.
Qed.

(** The update part starts the update command, once, whatever follows. *)
Lemma update_lambda_spawned (env : Dict.t pyval) :
  spawned (fst (update_lambda rt env)) = [update_argv (env_json_str rt env)].
Proof.
  destruct (Z.eq_dec (returncode (update_result env)) 0) as [Hrc|Hrc].
  - destruct (json_loads rt (stdout (update_result env))) as [c|] eqn:Hc.
    + rewrite (update_lambda_reported rt env c Hrc Hc). cbn [fst].
      rewrite spawned_app. cbn [spawned].
      now rewrite (proj1 (printed_only _ (report_prints_only rt c))).
    + now rewrite (update_lambda_undecodable rt env Hrc Hc).
  - now rewrite (update_lambda_refused rt env Hrc).
Qed.

(** The commands of a run: the read call, and the update call when the
    read call succeeded and printed a JSON object. *)
Lemma spawned_python :
  spawned (trace (python rt)) =
  fetch_argv ::
  (if Z.eqb (returncode result) 0 then
     match json_loads rt (stdout result) with
     | Some (PDict E) => [update_argv (env_json_str rt (merge E sms_config))]
     | _ => []
     end
   else []).
Proof.
  unfold python. rewrite spawned_run_script.
  destruct (Z.eqb_spec (returncode result) 0) as [Hrc|Hrc].
  - destruct (json_loads rt (stdout result)) as [v|] eqn:Hv.
    + destruct v as [|b|literal|s|items|E];
        try (now rewrite (main_no_len rt _ Hrc Hv eq_refl));
        try (now rewrite (main_not_mapping rt _ _ Hrc Hv eq_refl eq_refl)).
      rewrite (main_merged rt E Hrc Hv). cbn [fst].
      rewrite spawned_app, update_lambda_spawned. reflexivity.
    + now rewrite (main_fetch_undecodable rt Hrc Hv).
  - now rewrite (main_fetch_refused rt Hrc).
Qed.

(** C2.  When the read call succeeds and prints the dict [E], the run
    starts exactly one update call, the command line of lines 51-54, and
    the text after [--environment] is [json.dumps] of
    [{"Variables": submitted}] where [submitted] is [merge E sms_config].
    The submitted dict is a superset of [E]: every key of [E] is a key of
    it, every item of the patch is in it with the patch's value, an item of
    [E] whose key the patch does not have is in it unchanged, it has no
    other item, and its keys are distinct. *)
Theorem submitted_env_superset (E : Dict.t pyval) :
  returncode result = 0%Z ->
  json_loads rt (stdout result) = Some (PDict E) ->
  Dict.wf E ->
  exists submitted : Dict.t pyval,
    submitted = merge E sms_config /\
    spawned (trace (python rt)) =
      [ ["aws"; "lambda"; "get-function-configuration";
         "--function-name"; "scrapmate-node-api-production";
         "--region"; "ap-south-1";
         "--query"; "Environment.Variables";
         "--output"; "json"];
        ["aws"; "lambda"; "update-function-configuration";
         "--function-name"; "scrapmate-node-api-production";
         "--region"; "ap-south-1";
         "--environment";
         json_dumps rt (PDict [("Variables", PDict submitted)])] ]%string /\
    (forall k v, In (k, v) E -> exists v', In (k, v') submitted) /\
    (forall k v, In (k, v) sms_config -> In (k, v) submitted) /\
    (forall k v, In (k, v) E -> (forall v', ~ In (k, v') sms_config) ->
                 In (k, v) submitted) /\
    (forall k v, In (k, v) submitted -> In (k, v) sms_config \/ In (k, v) E) /\
    NoDup (map fst submitted) /\
    (forall k, In k (Dict.keys E) -> In k (Dict.keys submitted)) /\
    (forall k v, Dict.get k sms_config = Some v ->
       Dict.get k submitted = Some v) /\
    (forall k, Dict.get k sms_config = None ->
       Dict.get k submitted = Dict.get k E).
Proof.
  intros Hrc Hv HE. exists (merge E sms_config).
  destruct (merge_items E sms_config HE sms_config_wf)
    as (Hpatch & Hrest & Hall & Honly).
  repeat apply conj.
  - reflexivity.
  - rewrite spawned_python, Hrc, Hv. reflexivity.
  - exact Hall.
  - exact Hpatch.
  - exact Hrest.
  - exact Honly.
  - apply merge_wf.
  - intros k Hk. apply merge_keys; [exact HE | now left].
  - intros k v. apply merge_get_patch; [exact HE | exact sms_config_wf].
  - intros k. apply merge_get_rest; [exact HE | exact sms_config_wf].
Qed.

(** C3, amended.  When the read call returns a non-zero status, the run
    starts no update call and exits with status 1; the provider's error
    text goes to standard output, after the failure marker, and nothing is
    written to standard error. *)
Theorem fetch_failure_stops :
  returncode result <> 0%Z ->
  spawned (trace (python rt)) = [fetch_argv] /\
  exit_status (python rt) = 1%Z /\
  stdout_of (trace (python rt)) =
    ["🔍 Fetching current environment variables from scrapmate-node-api-production...";
     "❌ Error fetching current configuration: " ++ stderr result]%string /\
  stderr_of (trace (python rt)) = [].
Proof.
  intros Hrc. unfold python. rewrite (main_fetch_refused rt Hrc).
  repeat split.
Qed.

(** C8, amended.  When the read call succeeds and prints [null], the
    value is not taken for an empty dict: [len(current_env)] on line 40
    raises before the merge on line 43 is reached, the run ends there with
    a traceback and status 1, and no update call is started.  The merge
    would refuse the value as well. *)
Theorem null_env_fails_at_len :
  returncode result = 0%Z ->
  json_loads rt (stdout result) = Some PNone ->
  main rt =
    ([Stdout "🔍 Fetching current environment variables from scrapmate-node-api-production...";
      Spawn fetch_argv],
     inl (Raise AtLenEnv)) /\
  spawned (trace (python rt)) = [fetch_argv] /\
  exit_status (python rt) = 1%Z /\
  merge_sms PNone = raise AtMerge.
Proof.
  intros Hrc Hv. unfold python.
  rewrite (main_no_len rt PNone Hrc Hv eq_refl). repeat split.
Qed.
End Runs.

Lemma submitted_env_superset_witness :
  returncode (subprocess_run rt_ok fetch_argv) = 0%Z /\
  json_loads rt_ok (stdout (subprocess_run rt_ok fetch_argv)) = Some (PDict remote_env) /\
  Dict.wf remote_env /\
  exists submitted : Dict.t pyval,
    submitted = merge remote_env sms_config /\
    spawned (trace (python rt_ok)) =
      [ ["aws"; "lambda"; "get-function-configuration";
         "--function-name"; "scrapmate-node-api-production";
         "--region"; "ap-south-1";
         "--query"; "Environment.Variables";
         "--output"; "json"];
        ["aws"; "lambda"; "update-function-configuration";
         "--function-name"; "scrapmate-node-api-production";
         "--region"; "ap-south-1";
         "--environment";
         json_dumps rt_ok (PDict [("Variables", PDict submitted)])] ]%string /\
    (forall k v, In (k, v) remote_env -> exists v', In (k, v') submitted) /\
    (forall k v, In (k, v) sms_config -> In (k, v) submitted) /\
    (forall k v, In (k, v) remote_env -> (forall v', ~ In (k, v') sms_config) ->
                 In (k, v) submitted) /\
    (forall k v, In (k, v) submitted ->
                 In (k, v) sms_config \/ In (k, v) remote_env) /\
    NoDup (map fst submitted) /\
    (forall k, In k (Dict.keys remote_env) -> In k (Dict.keys submitted)) /\
    (forall k v, Dict.get k sms_config = Some v ->
       Dict.get k submitted = Some v) /\
    (forall k, Dict.get k sms_config = None ->
       Dict.get k submitted = Dict.get k remote_env).
Proof.
  assert (HE : Dict.wf remote_env) by solve_wf.
  split; [reflexivity|]. split; [reflexivity|]. split; [exact HE|].
  exact (submitted_env_superset rt_ok remote_env eq_refl eq_refl HE).
Defined.

Lemma fetch_failure_stops_witness :
  returncode (subprocess_run rt_fetch_denied fetch_argv) <> 0%Z /\
  spawned (trace (python rt_fetch_denied)) = [fetch_argv] /\
  exit_status (python rt_fetch_denied) = 1%Z /\
  stdout_of (trace (python rt_fetch_denied)) =
    ["🔍 Fetching current environment variables from scrapmate-node-api-production...";
     "❌ Error fetching current configuration: "
     ++ stderr (subprocess_run rt_fetch_denied fetch_argv)]%string /\
  stderr_of (trace (python rt_fetch_denied)) = [].
Proof.
  assert (Hrc : returncode (subprocess_run rt_fetch_denied fetch_argv) <> 0%Z)
    by (simpl; lia).
  split; [exact Hrc|]. exact (fetch_failure_stops rt_fetch_denied Hrc).
Defined.

(** C3, as the specification states it, fails when the read call is
    refused: the error text is printed on standard output and standard
    error stays empty. *)
Lemma refused_fetch_leaves_stderr_empty :
  ~ fetch_failure_on_stderr rt_fetch_denied.
Proof.
  intros H. destruct H as (_ & _ & Herr); [simpl; lia|].
  now apply Herr.
Qed.

Lemma null_env_fails_at_len_witness :
  returncode (subprocess_run rt_null fetch_argv) = 0%Z /\
  json_loads rt_null (stdout (subprocess_run rt_null fetch_argv)) = Some PNone /\
  main rt_null =
    ([Stdout "🔍 Fetching current environment variables from scrapmate-node-api-production...";
      Spawn fetch_argv],
     inl (Raise AtLenEnv)) /\
  spawned (trace (python rt_null)) = [fetch_argv] /\
  exit_status (python rt_null) = 1%Z /\
  merge_sms PNone = raise AtMerge.
Proof.
  split; [reflexivity|]. split; [reflexivity|].
  exact (null_env_fails_at_len rt_null eq_refl eq_refl).
Defined.

(** C8, as it is stated, fails on a [null] answer: the exception is
    raised by [len] on line 40, not by the merge. *)
Lemma null_does_not_reach_merge : ~ null_fails_in_merge rt_null.
Proof.
  intros H. destruct H as [Hmerge _]; [reflexivity | reflexivity |].
  discriminate Hmerge.
Qed.

(** ** Exit status *)

Lemma bind_no_sys_exit {A B} (m : M A) (f : A -> M B) :
  no_sys_exit m -> (forall a, no_sys_exit (f a)) -> no_sys_exit (bind m f).
Proof.
  unfold no_sys_exit. destruct m as [t [h|a]]; intros Hm Hf code.
  - cbn [bind snd]. intros Heq. injection Heq as ->. now apply (Hm code).
  - rewrite bind_value. apply Hf.
Qed.

Lemma try_no_sys_exit {A} (s : site) (o : option A) : no_sys_exit (try s o).
Proof. intros code. now destruct o. Qed.

Lemma for_each_no_sys_exit {A} (l : list A) (body : A -> M unit) :
  (forall x, no_sys_exit (body x)) -> no_sys_exit (for_each l body).
Proof.
  intros Hbody. induction l as [|x l IH]; [discriminate|].
  cbn [for_each]. apply bind_no_sys_exit; [apply Hbody | intros _; exact IH].
Qed.

Lemma display_value_no_sys_exit (rt : Runtime) (key : string) (v : pyval) :
  no_sys_exit (display_value rt key v).
Proof.
  unfold display_value. destruct (sensitive key); [|discriminate].
  apply bind_no_sys_exit; [apply try_no_sys_exit | intros n].
  destruct (Nat.ltb 10 n); [|discriminate].
  apply bind_no_sys_exit; [apply try_no_sys_exit | discriminate].
Qed.

Lemma report_no_sys_exit (rt : Runtime) (updated_config : pyval) :
  no_sys_exit (report rt updated_config).
Proof.
  unfold report.
  repeat (apply bind_no_sys_exit; [apply try_no_sys_exit | intros ?]).
  apply for_each_no_sys_exit. intros key.
  apply bind_no_sys_exit; [apply try_no_sys_exit | intros value].
  apply bind_no_sys_exit; [apply display_value_no_sys_exit | discriminate].
Qed.

(** The report ends normally or with an exception. *)
Lemma report_outcome (rt : Runtime) (updated_config : pyval) :
  snd (report rt updated_config) = inr tt \/
  exists s, snd (report rt updated_config) = inl (Raise s).
Proof.
  pose proof (report_no_sys_exit rt updated_config) as Hno.
  destruct (snd (report rt updated_config)) as [[code|s]|[]] eqn:Hsnd.
  - now destruct (Hno code).
  - right. now exists s.
  - now left.
Qed.

Section ExitStatus.
Variable rt : Runtime.

Local Abbreviation result := (subprocess_run rt fetch_argv).
Local Abbreviation update_result env :=
  (subprocess_run rt (update_argv (env_json_str rt env))).

Ltac on_path L :=
  unfold python; rewrite spawned_run_script; rewrite L;
  cbn [run_script trace exit_status fst snd spawned app].

Ltac dead_end :=
  split; [discriminate|];
  split; [reflexivity|];
  split; [discriminate | discriminate].

(** C6.  The exit status is 0 exactly when the script runs to its end, and
    then both provider calls were made and both returned 0; it is 1
    whenever a provider call that was made, the read call or the update
    call, returned a non-zero status. *)
Theorem exit_status_by_calls :
  (snd (main rt) = inr tt ->
   exit_status (python rt) = 0%Z /\
   exists payload,
     spawned (trace (python rt)) = [fetch_argv; update_argv payload] /\
     returncode result = 0%Z /\
     returncode (subprocess_run rt (update_argv payload)) = 0%Z) /\
  (forall argv,
     In argv (spawned (trace (python rt))) ->
     returncode (subprocess_run rt argv) <> 0%Z ->
     exit_status (python rt) = 1%Z) /\
  (exit_status (python rt) = 0%Z <-> snd (main rt) = inr tt).
Proof.
  destruct (Z.eq_dec (returncode result) 0) as [Hrc|Hrc].
  2: { on_path (main_fetch_refused rt Hrc). dead_end. }
  destruct (json_loads rt (stdout result)) as [v|] eqn:Hv.
  2: { on_path (main_fetch_undecodable rt Hrc Hv). dead_end. }
  destruct v as [|b|literal|s|items|E];
    try (on_path (main_no_len rt _ Hrc Hv eq_refl); dead_end);
    try (on_path (main_not_mapping rt _ _ Hrc Hv eq_refl eq_refl); dead_end).
  unfold python. rewrite spawned_run_script, (main_merged rt E Hrc Hv).
  cbn [fst snd]. rewrite spawned_app, update_lambda_spawned.
  cbn [spawned app].
  destruct (Z.eq_dec (returncode (update_result (merge E sms_config))) 0)
    as [Hrcu|Hrcu].
  2: { rewrite (update_lambda_refused rt _ Hrcu).
       cbn [run_script trace exit_status fst snd]. dead_end. }
  destruct (json_loads rt (stdout (update_result (merge E sms_config))))
    as [c|] eqn:Hc.
  2: { rewrite (update_lambda_undecodable rt _ Hrcu Hc).
       cbn [run_script trace exit_status fst snd]. dead_end. }
  rewrite (update_lambda_reported rt _ c Hrcu Hc). cbn [fst snd].
  destruct (report_outcome rt c) as [Hend|[s Hend]]; rewrite Hend;
    cbn [run_script trace exit_status]; [|dead_end].
  split; [|split].
  - intros _. split; [reflexivity|].
    exists (env_json_str rt (merge E sms_config)). now repeat split.
  - intros argv [<-|[<-|[]]] Hne; contradiction.
  - now split.
Qed.
End ExitStatus.

Lemma exit_status_by_calls_witness :
  (snd (main rt_ok) = inr tt /\ exit_status (python rt_ok) = 0%Z) /\
  (In fetch_argv (spawned (trace (python rt_fetch_denied))) /\
   returncode (subprocess_run rt_fetch_denied fetch_argv) <> 0%Z /\
   exit_status (python rt_fetch_denied) = 1%Z) /\
  (In (update_argv (env_json_str rt_update_denied (merge remote_env sms_config)))
      (spawned (trace (python rt_update_denied))) /\
   returncode (subprocess_run rt_update_denied
                 (update_argv (env_json_str rt_update_denied
                                 (merge remote_env sms_config)))) <> 0%Z /\
   exit_status (python rt_update_denied) = 1%Z).
Proof.
  split; [|split].
  - split; [reflexivity|].
    exact (proj1 (proj1 (exit_status_by_calls rt_ok) eq_refl)).
  - assert (Hin : In fetch_argv (spawned (trace (python rt_fetch_denied))))
      by (now left).
    assert (Hrc : returncode (subprocess_run rt_fetch_denied fetch_argv) <> 0%Z)
      by (simpl; lia).
    split; [exact Hin|]. split; [exact Hrc|].
    exact (proj1 (proj2 (exit_status_by_calls rt_fetch_denied)) _ Hin Hrc).
  - assert (Hin : In (update_argv (env_json_str rt_update_denied
                                     (merge remote_env sms_config)))
                     (spawned (trace (python rt_update_denied))))
      by (right; now left).
    assert (Hrc : returncode (subprocess_run rt_update_denied
                    (update_argv (env_json_str rt_update_denied
                                    (merge remote_env sms_config)))) <> 0%Z)
      by (simpl; lia).
    split; [exact Hin|]. split; [exact Hrc|].
    exact (proj1 (proj2 (exit_status_by_calls rt_update_denied)) _ Hin Hrc).
Defined.

(** ** The run depends on the provider through its two answers only *)

Lemma bind_ext_on {A B} (m : M A) (f g : A -> M B) :
  (forall a, snd m = inr a -> f a = g a) -> bind m f = bind m g.
Proof.
  destruct m as [t [h|a]]; intros Hfg; [reflexivity|].
  cbn [bind]. now rewrite (Hfg a eq_refl).
Qed.

Section Determinism.
Variable rt : Runtime.
Variable provider : list string -> CompletedProcess.

Local Abbreviation result := (subprocess_run rt fetch_argv).
Local Abbreviation rt' := (with_provider rt provider).

Lemma get_current_env_inv (v : pyval) :
  snd (get_current_env rt) = inr v ->
  returncode result = 0%Z /\ json_loads rt (stdout result) = Some v.
Proof.
  unfold get_current_env. script_steps.
  destruct (Z.eqb_spec (returncode result) 0) as [Hrc|Hrc]; script_steps;
    [|discriminate].
  destruct (json_loads rt (stdout result)) as [w|]; script_steps; [|discriminate].
  destruct (py_len w); script_steps; [|discriminate].
  intros [= ->]. now split.
Qed.

Lemma merge_sms_inv (v : pyval) (env : Dict.t pyval) :
  snd (merge_sms v) = inr env ->
  exists E, v = PDict E /\ env = merge E sms_config.
Proof.
  unfold merge_sms. destruct v as [|b|literal|s|items|E]; try discriminate.
  script_steps. intros [= <-]. now exists E.
Qed.

Hypothesis same_answers :
  forall argv, In argv (spawned (trace (python rt))) ->
               provider argv = subprocess_run rt argv.

Lemma same_fetch : provider fetch_argv = result.
Proof. apply same_answers. rewrite spawned_python. now left. Qed.

Lemma same_update (E : Dict.t pyval) :
  returncode result = 0%Z ->
  json_loads rt (stdout result) = Some (PDict E) ->
  provider (update_argv (env_json_str rt (merge E sms_config)))
  = subprocess_run rt (update_argv (env_json_str rt (merge E sms_config))).
Proof.
  intros Hrc Hv. apply same_answers. rewrite spawned_python, Hrc, Hv.
  right. now left.
Qed.

Lemma same_main : main rt' = main rt.
Proof.
  unfold main.
  assert (Hget : get_current_env rt' = get_current_env rt).
  { unfold get_current_env, run. cbn [with_provider subprocess_run json_loads].
    now rewrite same_fetch. }
  rewrite Hget. apply bind_ext_on. intros v Hv.
  apply get_current_env_inv in Hv. destruct Hv as [Hrc Hv].
  apply bind_ext_on. intros env Henv.
  apply merge_sms_inv in Henv. destruct Henv as (E & -> & ->).
  unfold update_lambda, run, env_json_str.
  cbn [with_provider subprocess_run json_loads json_dumps].
  pose proof (same_update E Hrc Hv) as Hupd. unfold env_json_str in Hupd.
  now rewrite Hupd.
Qed.
End Determinism.

(** C10.  Take a run, and a second run with the same library in which
    the provider gives, to every call the first run makes, the answer it
    gave in the first run: the same status, the same output and the same
    error text.  The second run is the first one again: the same lines on
    standard output, the same exit status, the same calls. *)
Theorem python_deterministic (rt : Runtime)
    (provider : list string -> CompletedProcess) :
  (forall argv, In argv (spawned (trace (python rt))) ->
                provider argv = subprocess_run rt argv) ->
  stdout_of (trace (python (with_provider rt provider)))
    = stdout_of (trace (python rt)) /\
  exit_status (python (with_provider rt provider)) = exit_status (python rt) /\
  python (with_provider rt provider) = python rt.
Proof.
  intros Hsame. unfold python. now rewrite (same_main rt provider Hsame).
Qed.

Lemma python_deterministic_witness :
  (forall argv, In argv (spawned (trace (python rt_ok))) ->
                strict_provider argv = subprocess_run rt_ok argv) /\
  stdout_of (trace (python (with_provider rt_ok strict_provider)))
    = stdout_of (trace (python rt_ok)) /\
  exit_status (python (with_provider rt_ok strict_provider))
    = exit_status (python rt_ok) /\
  python (with_provider rt_ok strict_provider) = python rt_ok.
Proof.
  assert (Hsame : forall argv, In argv (spawned (trace (python rt_ok))) ->
                    strict_provider argv = subprocess_run rt_ok argv).
  { intros argv [<-|[<-|[]]]; reflexivity. }
  split; [exact Hsame|].
  exact (python_deterministic rt_ok strict_provider Hsame).
Defined.

(** ** The runs of the stubs, in full *)

(** Scenarios B and C together, from the first line to the last. *)
Example run_ok :
  stdout_of (trace (python rt_ok)) =
    ["🔍 Fetching current environment variables from scrapmate-node-api-production...";
     "✅ Current environment variables: 2 variables";
     "✅ Updated environment variables: 6 variables";
     "   Added SMS configuration variables";
     nl ++ "📤 Updating Lambda function environment variables...";
     "✅ Successfully updated Lambda function!";
     nl ++ "📋 Updated environment variables:";
     "   ✅ FOO: bar";
     "   ✅ SMS_API_ENITYID: 1701173389563945545";
     "   ✅ SMS_API_KEY: /BR2+k;L(-...";
     "   ✅ SMS_API_TOKEN: EVLZ8267TM...";
     "   ✅ SMS_API_URL_NEW: http://4sms.alp-ts.com/api/sms/v1.0/send-sms";
     "   ✅ SMS_HEADER_CENTER_ID: SCRPMT"]%string /\
  exit_status (python rt_ok) = 0%Z.
Proof. split; reflexivity. Qed.

(** Scenario D. *)
Example run_fetch_denied :
  python rt_fetch_denied =
    {| trace :=
         [Stdout "🔍 Fetching current environment variables from scrapmate-node-api-production...";
          Spawn fetch_argv;
          Stdout "❌ Error fetching current configuration: An error occurred (AccessDeniedException): not authorized"];
       exit_status := 1 |}.
Proof. reflexivity. Qed.

Example run_update_denied :
  spawned (trace (python rt_update_denied)) =
    [fetch_argv;
     update_argv (dumps (PDict [("Variables", PDict (merge remote_env sms_config))]))] /\
  exit_status (python rt_update_denied) = 1%Z /\
  stderr_of (trace (python rt_update_denied)) = [].
Proof. repeat split. Qed.

Example run_null :
  python rt_null =
    {| trace :=
         [Stdout "🔍 Fetching current environment variables from scrapmate-node-api-production...";
          Spawn fetch_argv;
          Traceback AtLenEnv];
       exit_status := 1 |}.
Proof. reflexivity. Qed.

(** * More of the script *)

(** ** The merge: order, size, and how merges compose *)

Lemma has_key_In {V} (k : string) (d : Dict.t V) :
  has_key k d = true <-> In k (Dict.keys d).
Proof.
  unfold has_key. rewrite existsb_exists. split.
  - intros (x & Hx & He). apply String.eqb_eq in He. now subst.
  - intros H. exists k. split; [exact H | apply String.eqb_refl].
Qed.

Lemma has_key_set {V} (x k : string) (v : V) (d : Dict.t V) :
  has_key x (Dict.set k v d) = (String.eqb x k || has_key x d)%bool.
Proof.
  apply Bool.eq_iff_eq_true.
  rewrite has_key_In, DictFacts.In_keys_set, orb_true_iff, has_key_In.
  now rewrite String.eqb_eq.
Qed.

Lemma keys_update_order {V} (d src : Dict.t V) :
  Dict.wf src ->
  Dict.keys (Dict.update d src) = Dict.keys d ++ new_keys d src.
Proof.
  revert d. induction src as [|[k v] src IH]; intros d Hwf.
  - unfold new_keys. simpl. now rewrite app_nil_r.
  - inversion Hwf as [|? ? Hnotin Hwf']; subst.
    rewrite DictFacts.update_cons, (IH _ Hwf').
    assert (Hsame : new_keys (Dict.set k v d) src = new_keys d src).
    { unfold new_keys. apply filter_ext_in. intros x Hx.
      rewrite has_key_set.
      destruct (String.eqb_spec x k) as [->|_]; [contradiction | reflexivity]. }
    rewrite Hsame. unfold new_keys at 2. cbn [Dict.keys map fst filter].
    fold (Dict.keys src). fold (new_keys d src).
    destruct (has_key k d) eqn:Hk; cbn [negb].
    + apply has_key_In in Hk. now rewrite DictFacts.keys_set_old.
    + assert (Hno : ~ In k (Dict.keys d)).
      { intros Hin. apply has_key_In in Hin. congruence. }
      rewrite (DictFacts.set_new _ _ _ Hno). unfold Dict.keys at 1.
      rewrite map_app, <- app_assoc. reflexivity.
Qed.

Lemma filter_none {A} (f : A -> bool) (l : list A) :
  (forall x, In x l -> f x = false) -> filter f l = [].
Proof.
  induction l as [|a l IH]; intros H; [reflexivity|].
  simpl. rewrite (H a) by now left. apply IH. intros x Hx. apply H. now right.
Qed.

Lemma filter_twice {A} (f g : A -> bool) (l : list A) :
  filter f (filter g l) = filter (fun x => (g x && f x)%bool) l.
Proof.
  induction l as [|a l IH]; [reflexivity|].
  simpl. destruct (g a); simpl; [destruct (f a)|]; now rewrite IH.
Qed.

Lemma merge_get (E P : Dict.t pyval) (k : string) :
  Dict.wf E -> Dict.wf P ->
  Dict.get k (merge E P) =
  match Dict.get k P with Some v => Some v | None => Dict.get k E end.
Proof.
  intros HE HP. destruct (Dict.get k P) as [v|] eqn:Hk.
  - now apply merge_get_patch.
  - now apply merge_get_rest.
Qed.

Lemma merge_keys_order (E P : Dict.t pyval) :
  Dict.wf E -> Dict.wf P ->
  Dict.keys (merge E P) = Dict.keys E ++ new_keys E P.
Proof.
  intros HE HP. rewrite (merge_is_update E P HE). now apply keys_update_order.
Qed.

(** X1.  The merge keeps the keys of the fetched dict where they are and
    puts the keys that only the patch has after them, in the order of the
    patch.  So the count printed on line 44 is the fetched count plus the
    number of new keys: at least the size of either dict, at most their
    sum. *)
Theorem merge_keeps_order (E P : Dict.t pyval) :
  Dict.wf E -> Dict.wf P ->
  Dict.keys (merge E P) = Dict.keys E ++ new_keys E P /\
  List.length (merge E P) = List.length E + List.length (new_keys E P) /\
  List.length E <= List.length (merge E P) /\
  List.length P <= List.length (merge E P) /\
  List.length (merge E P) <= List.length E + List.length P.
Proof.
  intros HE HP. pose proof (merge_keys_order E P HE HP) as Hk.
  assert (Hlen : List.length (merge E P)
                 = List.length E + List.length (new_keys E P)).
  { rewrite <- (length_map fst (merge E P)). fold (Dict.keys (merge E P)).
    rewrite Hk, length_app. unfold Dict.keys. now rewrite length_map. }
  split; [exact Hk|]. split; [exact Hlen|]. split; [lia|]. split.
  - rewrite <- (length_map fst P), <- (length_map fst (merge E P)).
    apply NoDup_incl_length; [exact HP|].
    intros k Hin. apply merge_keys; [exact HE | now right].
  - rewrite Hlen. apply Nat.add_le_mono_l. unfold new_keys.
    rewrite <- (length_map fst P). apply filter_length_le.
Qed.

Lemma merge_keeps_order_witness :
  Dict.wf remote_env /\ Dict.wf sms_config /\
  Dict.keys (merge remote_env sms_config)
    = Dict.keys remote_env ++ new_keys remote_env sms_config /\
  List.length (merge remote_env sms_config)
    = List.length remote_env + List.length (new_keys remote_env sms_config) /\
  List.length remote_env <= List.length (merge remote_env sms_config) /\
  List.length sms_config <= List.length (merge remote_env sms_config) /\
  List.length (merge remote_env sms_config)
    <= List.length remote_env + List.length sms_config.
Proof.
  assert (HE : Dict.wf remote_env) by solve_wf.
  assert (HP : Dict.wf sms_config) by solve_wf.
  split; [exact HE|]. split; [exact HP|].
  exact (merge_keeps_order remote_env sms_config HE HP).
Defined.

(** X2.  When the fetched dict already holds every item of the patch, the
    merge gives the fetched dict back, unchanged and in the same order: a
    second run of the script submits what the first run left. *)
Theorem merge_applied_is_noop (E P : Dict.t pyval) :
  Dict.wf E -> Dict.wf P ->
  (forall k v, Dict.get k P = Some v -> Dict.get k E = Some v) ->
  merge E P = E.
Proof.
  intros HE HP Hsub. apply DictFacts.ext.
  - apply merge_wf.
  - rewrite (merge_keys_order E P HE HP).
    replace (new_keys E P) with (@nil string); [apply app_nil_r|].
    symmetry. unfold new_keys. apply filter_none.
    intros k Hk. destruct (get_of_key k P Hk) as [v Hv].
    assert (Hin : In k (Dict.keys E)).
    { apply (DictFacts.In_keys k v), DictFacts.get_Some_In. now apply Hsub. }
    apply has_key_In in Hin. now rewrite Hin.
  - intros k. rewrite (merge_get E P k HE HP).
    destruct (Dict.get k P) as [v|] eqn:Hv; [|reflexivity].
    symmetry. now apply Hsub.
Qed.

Lemma merge_applied_is_noop_witness :
  Dict.wf (merge remote_env sms_config) /\ Dict.wf sms_config /\
  (forall k v, Dict.get k sms_config = Some v ->
               Dict.get k (merge remote_env sms_config) = Some v) /\
  merge (merge remote_env sms_config) sms_config = merge remote_env sms_config.
Proof.
  assert (HE : Dict.wf (merge remote_env sms_config)) by apply merge_wf.
  assert (HP : Dict.wf sms_config) by solve_wf.
  assert (Hsub : forall k v, Dict.get k sms_config = Some v ->
                   Dict.get k (merge remote_env sms_config) = Some v).
  { intros k v. apply merge_get_patch; [solve_wf | exact HP]. }
  split; [exact HE|]. split; [exact HP|]. split; [exact Hsub|].
  exact (merge_applied_is_noop _ _ HE HP Hsub).
Defined.

(** X3.  The empty cases of the merge: an empty fetched dict gives exactly
    the patch, in the patch's order, and an empty patch gives the fetched
    dict back. *)
Theorem merge_empty (E P : Dict.t pyval) :
  (Dict.wf P -> merge [] P = P) /\ (Dict.wf E -> merge E [] = E).
Proof.
  split; intros Hwf; unfold merge, Dict.unpack2.
  - cbn [Dict.update fold_left]. now apply DictFacts.copy_wf.
  - rewrite (DictFacts.copy_wf E Hwf). reflexivity.
Qed.

Lemma merge_empty_witness :
  Dict.wf sms_config /\ merge [] sms_config = sms_config /\
  Dict.wf remote_env /\ merge remote_env [] = remote_env.
Proof.
  assert (HE : Dict.wf remote_env) by solve_wf.
  assert (HP : Dict.wf sms_config) by solve_wf.
  split; [exact HP|]. split; [exact (proj1 (merge_empty [] sms_config) HP)|].
  split; [exact HE|]. exact (proj2 (merge_empty remote_env []) HE).
Defined.

Lemma has_key_merge (E P : Dict.t pyval) (k : string) :
  Dict.wf E -> has_key k (merge E P) = (has_key k E || has_key k P)%bool.
Proof.
  intros HE. apply Bool.eq_iff_eq_true.
  now rewrite orb_true_iff, !has_key_In, merge_keys.
Qed.

(** X4.  Merges compose: merging a patch [P] and then a patch [Q] is
    merging once with the patch [{**P, **Q}], items and order alike. *)
Theorem merge_assoc (E P Q : Dict.t pyval) :
  Dict.wf E -> Dict.wf P -> Dict.wf Q ->
  merge (merge E P) Q = merge E (merge P Q).
Proof.
  intros HE HP HQ.
  pose proof (merge_wf E P) as HEP. pose proof (merge_wf P Q) as HPQ.
  apply DictFacts.ext.
  - apply merge_wf.
  - rewrite (merge_keys_order _ Q HEP HQ), (merge_keys_order E P HE HP).
    rewrite (merge_keys_order E _ HE HPQ).
    rewrite <- app_assoc. f_equal.
    unfold new_keys at 3. rewrite (merge_keys_order P Q HP HQ), filter_app.
    fold (new_keys E P). f_equal.
    unfold new_keys. rewrite filter_twice. apply filter_ext.
    intros k. rewrite (has_key_merge E P k HE).
    now destruct (has_key k E), (has_key k P).
  - intros k.
    rewrite (merge_get _ Q k HEP HQ), (merge_get E P k HE HP).
    rewrite (merge_get E _ k HE HPQ), (merge_get P Q k HP HQ).
    now destruct (Dict.get k Q), (Dict.get k P).
Qed.

Lemma merge_assoc_witness :
  Dict.wf remote_env /\ Dict.wf sms_config /\ Dict.wf later_patch /\
  merge (merge remote_env sms_config) later_patch
    = merge remote_env (merge sms_config later_patch).
Proof.
  assert (HE : Dict.wf remote_env) by solve_wf.
  assert (HP : Dict.wf sms_config) by solve_wf.
  assert (HQ : Dict.wf later_patch) by solve_wf.
  split; [exact HE|]. split; [exact HP|]. split; [exact HQ|].
  exact (merge_assoc remote_env sms_config later_patch HE HP HQ).
Defined.

(** ** Every way a run can end *)

Lemma stderr_of_app (t1 t2 : list event) :
  stderr_of (t1 ++ t2) = stderr_of t1 ++ stderr_of t2.
Proof.
  induction t1 as [|[text|argv|s] t1 IH]; simpl; [reflexivity | | | ]; now rewrite IH.
Qed.

Lemma stdout_of_app (t1 t2 : list event) :
  stdout_of (t1 ++ t2) = stdout_of t1 ++ stdout_of t2.
Proof.
  induction t1 as [|[text|argv|s] t1 IH]; simpl; [reflexivity | | | ]; now rewrite IH.
Qed.

Lemma stdout_of_ended (m : M unit) :
  stdout_of (trace (run_script m)) = stdout_of (fst m).
Proof.
  destruct m as [t [[c|s]|u]]; cbn [run_script trace fst]; try reflexivity.
  rewrite stdout_of_app. cbn [stdout_of]. apply app_nil_r.
Qed.

Lemma stderr_of_lines (lines : list string) :
  stderr_of (map Stdout lines) = [].
Proof. induction lines as [|l lines IH]; simpl; [reflexivity | exact IH]. Qed.

Lemma stdout_of_lines (lines : list string) :
  stdout_of (map Stdout lines) = lines.
Proof. induction lines as [|l lines IH]; simpl; [reflexivity | now rewrite IH]. Qed.

Lemma tidy_bind {A B} (m : M A) (f : A -> M B) :
  tidy m -> (forall a, tidy (f a)) -> tidy (bind m f).
Proof.
  unfold tidy. destruct m as [t [h|a]]; cbn [fst snd]; intros [Ht Hc] Hf.
  - cbn [bind fst snd]. split; [exact Ht|].
    intros code Heq. apply Hc. now injection Heq as ->.
  - rewrite bind_value. cbn [fst snd]. destruct (Hf a) as [Ht' Hc'].
    split; [now rewrite stderr_of_app, Ht, Ht' | exact Hc'].
Qed.

Lemma tidy_value {A} (t : list event) (a : A) :
  stderr_of t = [] -> tidy (t, @inr halt A a).
Proof. intros Ht. split; [exact Ht | discriminate]. Qed.

Lemma tidy_try {A} (s : site) (o : option A) : tidy (try s o).
Proof. destruct o; (split; [reflexivity | discriminate]). Qed.

Lemma tidy_exit_1 {A} : tidy (@sys_exit A 1).
Proof. split; [reflexivity|]. now intros code [= <-]. Qed.

Lemma tidy_for_each {A} (l : list A) (body : A -> M unit) :
  (forall x, tidy (body x)) -> tidy (for_each l body).
Proof.
  intros Hbody. induction l as [|x l IH]; [now apply tidy_value|].
  cbn [for_each]. apply tidy_bind; [apply Hbody | intros _; exact IH].
Qed.

Lemma tidy_display_value (rt : Runtime) (key : string) (v : pyval) :
  tidy (display_value rt key v).
Proof.
  unfold display_value. destruct (sensitive key); [|now apply tidy_value].
  apply tidy_bind; [apply tidy_try | intros n].
  destruct (Nat.ltb 10 n); [|now apply tidy_value].
  apply tidy_bind; [apply tidy_try | intros head; now apply tidy_value].
Qed.

Lemma tidy_report (rt : Runtime) (updated_config : pyval) :
  tidy (report rt updated_config).
Proof.
  unfold report.
  repeat (apply tidy_bind; [apply tidy_try | intros ?]).
  apply tidy_for_each. intros key.
  apply tidy_bind; [apply tidy_try | intros value].
  apply tidy_bind; [apply tidy_display_value | intros shown].
  now apply tidy_value.
Qed.

Lemma tidy_checked (r : CompletedProcess) (message : string) :
  tidy (if Z.eqb (returncode r) 0 then ret tt
        else print message ;; sys_exit 1).
Proof.
  destruct (Z.eqb (returncode r) 0); [now apply tidy_value|].
  apply tidy_bind; [now apply tidy_value | intros _; apply tidy_exit_1].
Qed.

Lemma tidy_main (rt : Runtime) : tidy (main rt).
Proof.
  unfold main, get_current_env, merge_sms, update_lambda.
  repeat first
    [ apply tidy_report
    | apply tidy_bind; [|intros ?]
    | apply tidy_checked
    | apply tidy_try
    | now apply tidy_value ].
Qed.

Section Endings.
Variable rt : Runtime.

Local Abbreviation result := (subprocess_run rt fetch_argv).
Local Abbreviation update_result env :=
  (subprocess_run rt (update_argv (env_json_str rt env))).

(** X5.  A run ends in one of three ways: at the end of the script, with
    status 0; by [sys.exit(1)], with status 1; or by an exception nobody
    catches, with status 1 and one traceback.  In the first two nothing at
    all reaches standard error, and no other exit status exists. *)
Theorem three_ways_to_end :
  (snd (main rt) = inr tt /\
   exit_status (python rt) = 0%Z /\ stderr_of (trace (python rt)) = []) \/
  (snd (main rt) = inl (SysExit 1) /\
   exit_status (python rt) = 1%Z /\ stderr_of (trace (python rt)) = []) \/
  (exists s, snd (main rt) = inl (Raise s) /\
   exit_status (python rt) = 1%Z /\ stderr_of (trace (python rt)) = [s]).
Proof.
  destruct (tidy_main rt) as [Herr Hcode]. unfold python.
  destruct (main rt) as [t [[code|s]|[]]]; cbn [fst snd run_script trace exit_status] in *.
  - right. left. rewrite (Hcode code eq_refl). now repeat split.
  - right. right. exists s. rewrite stderr_of_app, Herr. now repeat split.
  - left. now repeat split.
Qed.

Lemma update_is_not_fetch (payload : string) : update_argv payload <> fetch_argv.
Proof. unfold update_argv, fetch_argv. discriminate. Qed.

(** X6.  The read call, the command line of lines 26-30, is the first
    command of every run and there are never more than two.  An
    [update-function-configuration] command is started exactly when the
    read call returned status 0 and printed a JSON object [E], and it is
    then the command line of lines 51-54 with [json.dumps] of
    [{"Variables": merge E sms_config}] after [--environment]: a failed or
    garbled read never leads to a write. *)
Theorem update_call_iff :
  hd_error (spawned (trace (python rt))) =
    Some ["aws"; "lambda"; "get-function-configuration";
          "--function-name"; "scrapmate-node-api-production";
          "--region"; "ap-south-1";
          "--query"; "Environment.Variables";
          "--output"; "json"]%string /\
  List.length (spawned (trace (python rt))) <= 2 /\
  ((exists argv, In argv (spawned (trace (python rt))) /\
                 nth_error argv 2 = Some "update-function-configuration"%string) <->
   (returncode result = 0%Z /\
    exists E, json_loads rt (stdout result) = Some (PDict E))) /\
  (forall argv,
     In argv (spawned (trace (python rt))) ->
     nth_error argv 2 = Some "update-function-configuration"%string ->
     exists E,
       json_loads rt (stdout result) = Some (PDict E) /\
       argv = ["aws"; "lambda"; "update-function-configuration";
               "--function-name"; "scrapmate-node-api-production";
               "--region"; "ap-south-1";
               "--environment";
               json_dumps rt
                 (PDict [("Variables", PDict (merge E sms_config))])]%string).
Proof.
  rewrite spawned_python.
  destruct (Z.eqb_spec (returncode result) 0) as [Hrc|Hrc].
  - destruct (json_loads rt (stdout result)) as [[|b|literal|s|items|E]|] eqn:Hv;
      cbn [hd_error List.length];
      (split; [reflexivity|]); (split; [lia|]); split;
      try (split;
           [ intros (argv & [<-|[]] & Hnth); discriminate Hnth
           | intros [_ [E' HE']]; discriminate HE' ]);
      try (intros argv [<-|[]] Hnth; discriminate Hnth).
    + split; [intros _; split; [exact Hrc | now exists E]|].
      intros _. eexists. split; [right; left; reflexivity | reflexivity].
    + intros argv [<-|[<-|[]]] Hnth; [discriminate Hnth|].
      exists E. split; reflexivity.
  - cbn [hd_error List.length]. split; [reflexivity|]. split; [lia|]. split.
    + split.
      * intros (argv & [<-|[]] & Hnth). discriminate Hnth.
      * intros [Hrc' _]. contradiction.
    + intros argv [<-|[]] Hnth. discriminate Hnth.
Qed.
End Endings.

Lemma update_call_iff_witness :
  In ["aws"; "lambda"; "update-function-configuration";
      "--function-name"; "scrapmate-node-api-production";
      "--region"; "ap-south-1";
      "--environment";
      json_dumps rt_ok
        (PDict [("Variables", PDict (merge remote_env sms_config))])]%string
     (spawned (trace (python rt_ok))) /\
  (returncode (subprocess_run rt_ok fetch_argv) = 0%Z /\
   exists E, json_loads rt_ok (stdout (subprocess_run rt_ok fetch_argv))
             = Some (PDict E)) /\
  exists E,
    json_loads rt_ok (stdout (subprocess_run rt_ok fetch_argv)) = Some (PDict E) /\
    ["aws"; "lambda"; "update-function-configuration";
     "--function-name"; "scrapmate-node-api-production";
     "--region"; "ap-south-1";
     "--environment";
     json_dumps rt_ok
       (PDict [("Variables", PDict (merge remote_env sms_config))])]%string
    = ["aws"; "lambda"; "update-function-configuration";
       "--function-name"; "scrapmate-node-api-production";
       "--region"; "ap-south-1";
       "--environment";
       json_dumps rt_ok (PDict [("Variables", PDict (merge E sms_config))])]%string.
Proof.
  assert (Hin : In ["aws"; "lambda"; "update-function-configuration";
                    "--function-name"; "scrapmate-node-api-production";
                    "--region"; "ap-south-1";
                    "--environment";
                    json_dumps rt_ok
                      (PDict [("Variables", PDict (merge remote_env sms_config))])]%string
                   (spawned (trace (python rt_ok)))) by (right; now left).
  split; [exact Hin|].
  destruct (update_call_iff rt_ok) as (_ & _ & Hiff & Hpayload).
  split.
  - apply (proj1 Hiff). eexists. split; [exact Hin | reflexivity].
  - exact (Hpayload _ Hin eq_refl).
Defined.

(** ** The paths that end early *)

Section EarlyEnds.
Variable rt : Runtime.

Local Abbreviation result := (subprocess_run rt fetch_argv).
Local Abbreviation update_result env :=
  (subprocess_run rt (update_argv (env_json_str rt env))).

Ltac along L :=
  unfold python; rewrite L;
  cbn [run_script trace exit_status fst snd spawned stdout_of stderr_of app].

(** X7.  When the read call returns status 0 and prints something that is
    not JSON, line 39 raises: the run ends with a traceback and status 1
    after its first line, and no update call is started. *)
Theorem undecodable_fetch_output :
  returncode result = 0%Z ->
  json_loads rt (stdout result) = None ->
  python rt =
    {| trace :=
         [Stdout "🔍 Fetching current environment variables from scrapmate-node-api-production...";
          Spawn fetch_argv;
          Traceback AtLoadsFetch];
       exit_status := 1 |}.
Proof.
  intros Hrc Hv. now along (main_fetch_undecodable rt Hrc Hv).
Qed.

(** X8.  When the read call prints JSON that is not an object, nothing is
    submitted and the run ends with a traceback and status 1.  A string or
    an array has a length, so its count is printed and the merge on line 43
    raises; [null], a boolean or a number already fails in [len] on
    line 40. *)
Theorem non_dict_env_never_submitted (v : pyval) :
  returncode result = 0%Z ->
  json_loads rt (stdout result) = Some v ->
  as_mapping v = None ->
  spawned (trace (python rt)) = [fetch_argv] /\
  exit_status (python rt) = 1%Z /\
  match py_len v with
  | Some n =>
      stdout_of (trace (python rt)) =
        ["🔍 Fetching current environment variables from scrapmate-node-api-production...";
         "✅ Current environment variables: " ++ str_of_nat n ++ " variables"]%string /\
      stderr_of (trace (python rt)) = [AtMerge]
  | None =>
      stdout_of (trace (python rt)) =
        ["🔍 Fetching current environment variables from scrapmate-node-api-production..."]%string /\
      stderr_of (trace (python rt)) = [AtLenEnv]
  end.
Proof.
  intros Hrc Hv Hmap. destruct (py_len v) as [n|] eqn:Hlen.
  - along (main_not_mapping rt v n Hrc Hv Hlen Hmap). now repeat split.
  - along (main_no_len rt v Hrc Hv Hlen). now repeat split.
Qed.

(** X9.  When the update call returns a non-zero status, the run has made
    both calls, prints the provider's error text on standard output after
    the failure marker, prints neither the success line nor a report, and
    exits with status 1; nothing is written to standard error. *)
Theorem update_failure_stops (E : Dict.t pyval) :
  returncode result = 0%Z ->
  json_loads rt (stdout result) = Some (PDict E) ->
  returncode (update_result (merge E sms_config)) <> 0%Z ->
  spawned (trace (python rt)) =
    [fetch_argv; update_argv (env_json_str rt (merge E sms_config))] /\
  exit_status (python rt) = 1%Z /\
  stdout_of (trace (python rt)) =
    ["🔍 Fetching current environment variables from scrapmate-node-api-production...";
     "✅ Current environment variables: "
       ++ str_of_nat (List.length E) ++ " variables";
     "✅ Updated environment variables: "
       ++ str_of_nat (List.length (merge E sms_config)) ++ " variables";
     "   Added SMS configuration variables";
     nl ++ "📤 Updating Lambda function environment variables...";
     "❌ Error updating configuration: "
       ++ stderr (update_result (merge E sms_config))]%string /\
  stderr_of (trace (python rt)) = [].
Proof.
  intros Hrc Hv Hrcu. unfold python.
  rewrite (main_merged rt E Hrc Hv), (update_lambda_refused rt _ Hrcu).
  cbn [run_script trace exit_status fst snd spawned stdout_of stderr_of app].
  now repeat split.
Qed.

(** X10.  When the update call returns status 0 and prints something that
    is not JSON, line 63 raises after the update was made: both calls are in
    the trace, the success line is not printed, and the run ends with a
    traceback and status 1. *)
Theorem undecodable_update_output (E : Dict.t pyval) :
  returncode result = 0%Z ->
  json_loads rt (stdout result) = Some (PDict E) ->
  returncode (update_result (merge E sms_config)) = 0%Z ->
  json_loads rt (stdout (update_result (merge E sms_config))) = None ->
  spawned (trace (python rt)) =
    [fetch_argv; update_argv (env_json_str rt (merge E sms_config))] /\
  exit_status (python rt) = 1%Z /\
  stdout_of (trace (python rt)) =
    ["🔍 Fetching current environment variables from scrapmate-node-api-production...";
     "✅ Current environment variables: "
       ++ str_of_nat (List.length E) ++ " variables";
     "✅ Updated environment variables: "
       ++ str_of_nat (List.length (merge E sms_config)) ++ " variables";
     "   Added SMS configuration variables";
     nl ++ "📤 Updating Lambda function environment variables..."]%string /\
  stderr_of (trace (python rt)) = [AtLoadsUpdate].
Proof.
  intros Hrc Hv Hrcu Hc. unfold python.
  rewrite (main_merged rt E Hrc Hv), (update_lambda_undecodable rt _ Hrcu Hc).
  cbn [run_script trace exit_status fst snd spawned stdout_of stderr_of app].
  now repeat split.
Qed.

(** X11.  When the confirmation has no [Environment] field, or its
    [Environment] has no [Variables] field, line 66 raises: the run has
    already printed the success line and the heading of the report, prints
    no report line, and ends with a traceback and status 1. *)
Theorem confirmation_without_variables (E : Dict.t pyval) (updated_config : pyval) :
  returncode result = 0%Z ->
  json_loads rt (stdout result) = Some (PDict E) ->
  returncode (update_result (merge E sms_config)) = 0%Z ->
  json_loads rt (stdout (update_result (merge E sms_config))) = Some updated_config ->
  (py_getitem updated_config "Environment" = None \/
   exists environment,
     py_getitem updated_config "Environment" = Some environment /\
     py_getitem environment "Variables" = None) ->
  exit_status (python rt) = 1%Z /\
  stdout_of (trace (python rt)) =
    ["🔍 Fetching current environment variables from scrapmate-node-api-production...";
     "✅ Current environment variables: "
       ++ str_of_nat (List.length E) ++ " variables";
     "✅ Updated environment variables: "
       ++ str_of_nat (List.length (merge E sms_config)) ++ " variables";
     "   Added SMS configuration variables";
     nl ++ "📤 Updating Lambda function environment variables...";
     "✅ Successfully updated Lambda function!";
     nl ++ "📋 Updated environment variables:"]%string /\
  (stderr_of (trace (python rt)) = [AtEnvironment] \/
   stderr_of (trace (python rt)) = [AtVariables]).
Proof.
  intros Hrc Hv Hrcu Hc Hmissing. unfold python.
  rewrite (main_merged rt E Hrc Hv), (update_lambda_reported rt _ _ Hrcu Hc).
  destruct Hmissing as [Henv|(environment & Henv & Hvars)].
  - assert (Hrep : report rt updated_config = raise AtEnvironment).
    { unfold report. now rewrite Henv. }
    rewrite Hrep.
    cbn [raise run_script trace exit_status fst snd stdout_of stderr_of app].
    split; [reflexivity|]. split; [reflexivity|]. now left.
  - assert (Hrep : report rt updated_config = raise AtVariables).
    { unfold report. rewrite Henv.
      change (try AtEnvironment (Some environment)) with (ret environment).
      now rewrite bind_ret, Hvars. }
    rewrite Hrep.
    cbn [raise run_script trace exit_status fst snd stdout_of stderr_of app].
    split; [reflexivity|]. split; [reflexivity|]. now right.
Qed.
End EarlyEnds.

Lemma undecodable_fetch_output_witness :
  returncode (subprocess_run rt_empty_output fetch_argv) = 0%Z /\
  json_loads rt_empty_output (stdout (subprocess_run rt_empty_output fetch_argv))
    = None /\
  python rt_empty_output =
    {| trace :=
         [Stdout "🔍 Fetching current environment variables from scrapmate-node-api-production...";
          Spawn fetch_argv;
          Traceback AtLoadsFetch];
       exit_status := 1 |}.
Proof.
  split; [reflexivity|]. split; [reflexivity|].
  exact (undecodable_fetch_output rt_empty_output eq_refl eq_refl).
Defined.

Lemma non_dict_env_never_submitted_witness :
  returncode (subprocess_run rt_list_output fetch_argv) = 0%Z /\
  json_loads rt_list_output (stdout (subprocess_run rt_list_output fetch_argv))
    = Some (PList []) /\
  as_mapping (PList []) = None /\
  spawned (trace (python rt_list_output)) = [fetch_argv] /\
  exit_status (python rt_list_output) = 1%Z /\
  stdout_of (trace (python rt_list_output)) =
    ["🔍 Fetching current environment variables from scrapmate-node-api-production...";
     "✅ Current environment variables: 0 variables"]%string /\
  stderr_of (trace (python rt_list_output)) = [AtMerge].
Proof.
  split; [reflexivity|]. split; [reflexivity|]. split; [reflexivity|].
  exact (non_dict_env_never_submitted rt_list_output (PList [])
           eq_refl eq_refl eq_refl).
Defined.

Lemma update_failure_stops_witness :
  returncode (subprocess_run rt_update_denied fetch_argv) = 0%Z /\
  json_loads rt_update_denied (stdout (subprocess_run rt_update_denied fetch_argv))
    = Some (PDict remote_env) /\
  returncode (subprocess_run rt_update_denied
                (update_argv (env_json_str rt_update_denied
                                (merge remote_env sms_config)))) <> 0%Z /\
  exit_status (python rt_update_denied) = 1%Z /\
  stderr_of (trace (python rt_update_denied)) = [].
Proof.
  assert (Hrcu : returncode (subprocess_run rt_update_denied
                   (update_argv (env_json_str rt_update_denied
                                   (merge remote_env sms_config)))) <> 0%Z)
    by (simpl; lia).
  split; [reflexivity|]. split; [reflexivity|]. split; [exact Hrcu|].
  destruct (update_failure_stops rt_update_denied remote_env eq_refl eq_refl Hrcu)
    as (_ & Hexit & _ & Herr).
  split; [exact Hexit | exact Herr].
Defined.

Lemma undecodable_update_output_witness :
  returncode (subprocess_run rt_update_silent fetch_argv) = 0%Z /\
  json_loads rt_update_silent (stdout (subprocess_run rt_update_silent fetch_argv))
    = Some (PDict remote_env) /\
  returncode (subprocess_run rt_update_silent
                (update_argv (env_json_str rt_update_silent
                                (merge remote_env sms_config)))) = 0%Z /\
  json_loads rt_update_silent
    (stdout (subprocess_run rt_update_silent
               (update_argv (env_json_str rt_update_silent
                               (merge remote_env sms_config))))) = None /\
  exit_status (python rt_update_silent) = 1%Z /\
  stderr_of (trace (python rt_update_silent)) = [AtLoadsUpdate].
Proof.
  split; [reflexivity|]. split; [reflexivity|]. split; [reflexivity|].
  split; [reflexivity|].
  destruct (undecodable_update_output rt_update_silent remote_env
              eq_refl eq_refl eq_refl eq_refl) as (_ & Hexit & _ & Herr).
  split; [exact Hexit | exact Herr].
Defined.

Lemma confirmation_without_variables_witness :
  returncode (subprocess_run rt_bare_confirmation fetch_argv) = 0%Z /\
  json_loads rt_bare_confirmation
    (stdout (subprocess_run rt_bare_confirmation fetch_argv))
    = Some (PDict remote_env) /\
  json_loads rt_bare_confirmation
    (stdout (subprocess_run rt_bare_confirmation
               (update_argv (env_json_str rt_bare_confirmation
                               (merge remote_env sms_config)))))
    = Some bare_confirmation /\
  py_getitem bare_confirmation "Environment" = None /\
  exit_status (python rt_bare_confirmation) = 1%Z /\
  (stderr_of (trace (python rt_bare_confirmation)) = [AtEnvironment] \/
   stderr_of (trace (python rt_bare_confirmation)) = [AtVariables]).
Proof.
  split; [reflexivity|]. split; [reflexivity|]. split; [reflexivity|].
  split; [reflexivity|].
  destruct (confirmation_without_variables rt_bare_confirmation remote_env
              bare_confirmation eq_refl eq_refl eq_refl eq_refl
              (or_introl eq_refl)) as (Hexit & _ & Herr).
  split; [exact Hexit | exact Herr].
Defined.

(** ** The run that succeeds, and what the success line means *)

Section Success.
Variable rt : Runtime.

Local Abbreviation result := (subprocess_run rt fetch_argv).
Local Abbreviation update_result env :=
  (subprocess_run rt (update_argv (env_json_str rt env))).

Lemma report_of_strings (updated_config environment : pyval) (V : Dict.t pyval) :
  py_getitem updated_config "Environment" = Some environment ->
  py_getitem environment "Variables" = Some (PDict V) ->
  all_str V = true ->
  exists lines,
    report rt updated_config = (map Stdout lines, inr tt) /\
    Forall2 (fun key line =>
               exists value, Dict.get key V = Some (PStr value) /\
                 line = ("   ✅ " ++ key ++ ": " ++ shown_text key value)%string)
            (sorted (Dict.keys V)) lines.
Proof.
  intros Henv Hvars Hall.
  destruct (for_each_report rt V (sorted (Dict.keys V))) as (lines & Hrun & Hlines).
  { intros k Hk. apply all_str_get; [exact Hall|].
    eapply Permutation_in; [symmetry; apply sorted_perm | exact Hk]. }
  exists lines. split; [|exact Hlines].
  unfold report. rewrite Henv.
  change (try AtEnvironment (Some environment)) with (ret environment).
  rewrite bind_ret, Hvars.
  change (try AtVariables (Some (PDict V))) with (ret (PDict V)).
  rewrite bind_ret.
  change (try AtKeys (py_keys (PDict V))) with (ret (Dict.keys V)).
  rewrite bind_ret. exact Hrun.
Qed.

(** X12.  When both calls return status 0, the read call prints a JSON
    object and the confirmation holds string variables under
    [Environment.Variables], the run goes to its end: status 0, nothing on
    standard error, seven lines of progress and then one report line for
    each variable, in the order of the sorted keys. *)
Theorem success_when_well_formed (E : Dict.t pyval)
    (updated_config environment : pyval) (V : Dict.t pyval) :
  returncode result = 0%Z ->
  json_loads rt (stdout result) = Some (PDict E) ->
  returncode (update_result (merge E sms_config)) = 0%Z ->
  json_loads rt (stdout (update_result (merge E sms_config))) = Some updated_config ->
  py_getitem updated_config "Environment" = Some environment ->
  py_getitem environment "Variables" = Some (PDict V) ->
  all_str V = true ->
  exit_status (python rt) = 0%Z /\
  stderr_of (trace (python rt)) = [] /\
  exists lines,
    stdout_of (trace (python rt)) =
      ["🔍 Fetching current environment variables from scrapmate-node-api-production...";
       "✅ Current environment variables: "
         ++ str_of_nat (List.length E) ++ " variables";
       "✅ Updated environment variables: "
         ++ str_of_nat (List.length (merge E sms_config)) ++ " variables";
       "   Added SMS configuration variables";
       nl ++ "📤 Updating Lambda function environment variables...";
       "✅ Successfully updated Lambda function!";
       nl ++ "📋 Updated environment variables:"]%string ++ lines /\
    List.length lines = List.length V /\
    Forall2 (fun key line =>
               exists value, Dict.get key V = Some (PStr value) /\
                 line = ("   ✅ " ++ key ++ ": " ++ shown_text key value)%string)
            (sorted (Dict.keys V)) lines.
Proof.
  intros Hrc Hv Hrcu Hc Henv Hvars Hall.
  destruct (report_of_strings _ _ _ Henv Hvars Hall) as (lines & Hrep & Hlines).
  unfold python.
  rewrite (main_merged rt E Hrc Hv), (update_lambda_reported rt _ _ Hrcu Hc), Hrep.
  cbn [run_script trace exit_status fst snd stdout_of stderr_of app].
  split; [reflexivity|]. split.
  - apply stderr_of_lines.
  - exists lines. split; [now rewrite stdout_of_lines|]. split; [|exact Hlines].
    rewrite <- (Forall2_length Hlines).
    rewrite <- (Permutation_length (sorted_perm (Dict.keys V))).
    apply length_map.
Qed.

Ltac not_printed :=
  let H := fresh in
  intros H; cbn [In] in H;
  repeat (destruct H as [H|H]; [unfold success_line in H; simpl in H; discriminate H|]);
  exact H.

Ltac failed_path :=
  cbn [run_script trace fst snd stdout_of app];
  split; [ intros Hin; exfalso; revert Hin; not_printed | ].

(** X13.  The success line of line 64 is on standard output exactly when
    both calls returned status 0, the read call printed a JSON object and
    the update call printed JSON: it tells that the provider accepted the
    update, and it is printed even when the report that follows fails. *)
Theorem success_line_iff :
  In success_line (stdout_of (trace (python rt))) <->
  (returncode result = 0%Z /\
   exists E,
     json_loads rt (stdout result) = Some (PDict E) /\
     returncode (update_result (merge E sms_config)) = 0%Z /\
     exists updated_config,
       json_loads rt (stdout (update_result (merge E sms_config)))
       = Some updated_config).
Proof.
  unfold python.
  destruct (Z.eq_dec (returncode result) 0) as [Hrc|Hrc].
  2: { rewrite (main_fetch_refused rt Hrc). failed_path.
       intros [Hrc' _]. contradiction. }
  destruct (json_loads rt (stdout result)) as [v|] eqn:Hv.
  2: { rewrite (main_fetch_undecodable rt Hrc Hv). failed_path.
       intros (_ & E & HE & _). discriminate HE. }
  destruct v as [|b|literal|s|items|E];
    try (rewrite (main_no_len rt _ Hrc Hv eq_refl); failed_path;
         intros (_ & E & HE & _); discriminate HE);
    try (rewrite (main_not_mapping rt _ _ Hrc Hv eq_refl eq_refl); failed_path;
         intros (_ & E & HE & _); discriminate HE).
  rewrite (main_merged rt E Hrc Hv).
  destruct (Z.eq_dec (returncode (update_result (merge E sms_config))) 0)
    as [Hrcu|Hrcu].
  2: { rewrite (update_lambda_refused rt _ Hrcu). failed_path.
       intros (_ & E' & [= <-] & Hrcu' & _). contradiction. }
  destruct (json_loads rt (stdout (update_result (merge E sms_config))))
    as [c|] eqn:Hc.
  2: { rewrite (update_lambda_undecodable rt _ Hrcu Hc). failed_path.
       intros (_ & E' & [= <-] & _ & c & Hc'). congruence. }
  rewrite (update_lambda_reported rt _ c Hrcu Hc).
  rewrite stdout_of_ended. cbn [fst app stdout_of]. split.
  - intros _. split; [exact Hrc|]. exists E. split; [reflexivity|].
    split; [exact Hrcu|]. now exists c.
  - intros _. do 5 right. now left.
Qed.
End Success.

Lemma success_when_well_formed_witness :
  returncode (subprocess_run rt_ok fetch_argv) = 0%Z /\
  json_loads rt_ok (stdout (subprocess_run rt_ok fetch_argv))
    = Some (PDict remote_env) /\
  returncode (subprocess_run rt_ok
                (update_argv (env_json_str rt_ok (merge remote_env sms_config))))
    = 0%Z /\
  json_loads rt_ok
    (stdout (subprocess_run rt_ok
               (update_argv (env_json_str rt_ok (merge remote_env sms_config)))))
    = Some (confirmation (merge remote_env sms_config)) /\
  all_str (merge remote_env sms_config) = true /\
  exit_status (python rt_ok) = 0%Z /\
  stderr_of (trace (python rt_ok)) = [].
Proof.
  split; [reflexivity|]. split; [reflexivity|]. split; [reflexivity|].
  split; [reflexivity|]. split; [reflexivity|].
  destruct (success_when_well_formed rt_ok remote_env
              (confirmation (merge remote_env sms_config))
              (PDict [("Variables", PDict (merge remote_env sms_config))])
              (merge remote_env sms_config)
              eq_refl eq_refl eq_refl eq_refl eq_refl eq_refl eq_refl)
    as (Hexit & Herr & _).
  split; [exact Hexit | exact Herr].
Defined.

(** ** The report on any confirmation *)

Lemma for_each_ext {A} (l : list A) (f g : A -> M unit) :
  (forall x, f x = g x) -> for_each l f = for_each l g.
Proof.
  intros Hfg. induction l as [|x l IH]; [reflexivity|].
  cbn [for_each]. now rewrite Hfg, IH.
Qed.

Lemma get_permuted {V} (k : string) (d1 d2 : Dict.t V) :
  Dict.wf d1 -> Permutation d1 d2 -> Dict.get k d1 = Dict.get k d2.
Proof.
  intros Hwf Hperm.
  assert (Hwf2 : Dict.wf d2).
  { unfold Dict.wf, Dict.keys in *.
    eapply Permutation_NoDup; [apply Permutation_map; exact Hperm | exact Hwf]. }
  destruct (Dict.get k d1) as [v|] eqn:Hget; symmetry.
  - apply DictFacts.In_get; [exact Hwf2|].
    eapply Permutation_in; [exact Hperm|]. now apply DictFacts.get_Some_In.
  - apply DictFacts.get_None. apply DictFacts.get_None in Hget.
    intros Hin. apply Hget. unfold Dict.keys in *.
    eapply Permutation_in; [symmetry; apply Permutation_map; exact Hperm | exact Hin].
Qed.

Section AnyConfirmation.
Variable rt : Runtime.

Lemma report_on_variables (updated_config environment : pyval) (V : Dict.t pyval) :
  py_getitem updated_config "Environment" = Some environment ->
  py_getitem environment "Variables" = Some (PDict V) ->
  report rt updated_config =
  for_each (sorted (Dict.keys V)) (fun key =>
    value <- try AtValue (py_getitem (PDict V) key) ;;
    shown <- display_value rt key value ;;
    print (report_line rt key shown)).
Proof.
  intros Henv Hvars. unfold report. rewrite Henv.
  change (try AtEnvironment (Some environment)) with (ret environment).
  rewrite bind_ret, Hvars.
  change (try AtVariables (Some (PDict V))) with (ret (PDict V)).
  rewrite bind_ret.
  change (try AtKeys (py_keys (PDict V))) with (ret (Dict.keys V)).
  now rewrite bind_ret.
Qed.

(** X14.  The report does not depend on the order in which the
    confirmation lists the variables: two confirmations with the same
    variables, listed differently, give the same report, line for line, and
    end the same way. *)
Theorem report_ignores_listing_order
    (config1 config2 environment1 environment2 : pyval) (V1 V2 : Dict.t pyval) :
  py_getitem config1 "Environment" = Some environment1 ->
  py_getitem environment1 "Variables" = Some (PDict V1) ->
  py_getitem config2 "Environment" = Some environment2 ->
  py_getitem environment2 "Variables" = Some (PDict V2) ->
  Dict.wf V1 -> Permutation V1 V2 ->
  report rt config1 = report rt config2.
Proof.
  intros He1 Hv1 He2 Hv2 Hwf Hperm.
  rewrite (report_on_variables _ _ _ He1 Hv1), (report_on_variables _ _ _ He2 Hv2).
  assert (Hkeys : sorted (Dict.keys V1) = sorted (Dict.keys V2)).
  { apply sorted_unique; try apply sorted_ordered.
    rewrite <- (sorted_perm (Dict.keys V1)), <- (sorted_perm (Dict.keys V2)).
    now apply Permutation_map. }
  rewrite Hkeys. apply for_each_ext. intros key.
  change (py_getitem (PDict V1) key) with (Dict.get key V1).
  change (py_getitem (PDict V2) key) with (Dict.get key V2).
  now rewrite (get_permuted key V1 V2 Hwf Hperm).
Qed.

Lemma display_value_shape (key : string) (value : pyval) :
  (exists shown, display_value rt key value = ret shown) \/
  (exists s, display_value rt key value = raise s /\
             (s = AtLenValue \/ s = AtSlice)).
Proof.
  unfold display_value. destruct (sensitive key); [|left; now eexists].
  destruct (py_len value) as [n|]; [|right; exists AtLenValue; now split; [|left]].
  change (try AtLenValue (Some n)) with (ret n). rewrite bind_ret.
  destruct (Nat.ltb 10 n); [|left; now eexists].
  destruct (py_slice10 value) as [head|].
  - left. eexists. reflexivity.
  - right. exists AtSlice. now split; [|right].
Qed.

Lemma for_each_until (V : Dict.t pyval) (l : list string) :
  (forall k, In k l -> In k (Dict.keys V)) ->
  exists n lines,
    fst (for_each l (fun key =>
           value <- try AtValue (py_getitem (PDict V) key) ;;
           shown <- display_value rt key value ;;
           print (report_line rt key shown))) = map Stdout lines /\
    Forall2 (fun key line =>
               exists value shown,
                 Dict.get key V = Some value /\
                 display_value rt key value = ret shown /\
                 line = report_line rt key shown)
            (firstn n l) lines /\
    ((snd (for_each l (fun key =>
             value <- try AtValue (py_getitem (PDict V) key) ;;
             shown <- display_value rt key value ;;
             print (report_line rt key shown))) = inr tt /\
      n = List.length l) \/
     (exists key value s,
        nth_error l n = Some key /\
        Dict.get key V = Some value /\
        display_value rt key value = raise s /\
        snd (for_each l (fun key =>
               value <- try AtValue (py_getitem (PDict V) key) ;;
               shown <- display_value rt key value ;;
               print (report_line rt key shown))) = inl (Raise s))).
Proof.
  set (body := fun key : string =>
         value <- try AtValue (py_getitem (PDict V) key) ;;
         shown <- display_value rt key value ;;
         print (report_line rt key shown)).
  induction l as [|k l IH]; intros Hl.
  - exists 0, []. split; [reflexivity|]. split; [constructor|]. now left.
  - destruct (get_of_key k V (Hl k (or_introl eq_refl))) as [v Hv].
    assert (Hv' : py_getitem (PDict V) k = Some v) by exact Hv.
    cbn [for_each].
    destruct (display_value_shape k v) as [[shown Hshown]|(s & Hs & _)].
    + assert (Hbody : body k = ([Stdout (report_line rt k shown)], inr tt)).
      { unfold body. rewrite Hv'.
        change (try AtValue (Some v)) with (ret v).
        now rewrite bind_ret, Hshown, bind_ret. }
      destruct IH as (n & lines & Hfst & Hlines & Hend);
        [intros x Hx; apply Hl; now right|].
      rewrite Hbody, bind_value. cbn [fst snd].
      exists (S n), (report_line rt k shown :: lines).
      split; [cbn [map app]; now rewrite Hfst|]. split.
      * cbn [firstn]. constructor; [|exact Hlines]. now exists v, shown.
      * destruct Hend as [[Hok Hn]|(key & value & s & Hnth & Hget & Hd & Hsnd)].
        -- left. split; [exact Hok | cbn [List.length]; now rewrite Hn].
        -- right. exists key, value, s. now repeat split.
    + assert (Hbody : body k = raise s).
      { unfold body. rewrite Hv'.
        change (try AtValue (Some v)) with (ret v).
        now rewrite bind_ret, Hs. }
      rewrite Hbody. exists 0, []. split; [reflexivity|]. split; [constructor|].
      right. exists k, v, s. now repeat split.
Qed.

(** X15.  On any confirmation with a [Variables] dict, whatever its
    values, the report prints lines for the sorted keys in order, none
    skipped, each with the display value of its key.  It either covers
    every key and ends normally, or stops before the first key whose value
    cannot be masked ([len] or the slice raises) and ends with that
    exception. *)
Theorem report_stops_at_first_unmaskable
    (updated_config environment : pyval) (V : Dict.t pyval) :
  py_getitem updated_config "Environment" = Some environment ->
  py_getitem environment "Variables" = Some (PDict V) ->
  exists n lines,
    fst (report rt updated_config) = map Stdout lines /\
    Forall2 (fun key line =>
               exists value shown,
                 Dict.get key V = Some value /\
                 display_value rt key value = ret shown /\
                 line = report_line rt key shown)
            (firstn n (sorted (Dict.keys V))) lines /\
    ((snd (report rt updated_config) = inr tt /\ n = List.length V) \/
     (exists key value s,
        nth_error (sorted (Dict.keys V)) n = Some key /\
        Dict.get key V = Some value /\
        display_value rt key value = raise s /\
        snd (report rt updated_config) = inl (Raise s))).
Proof.
  intros Henv Hvars. rewrite (report_on_variables _ _ _ Henv Hvars).
  destruct (for_each_until V (sorted (Dict.keys V)))
    as (n & lines & Hfst & Hlines & Hend).
  { intros k Hk. eapply Permutation_in; [symmetry; apply sorted_perm | exact Hk]. }
  exists n, lines. split; [exact Hfst|]. split; [exact Hlines|].
  destruct Hend as [[Hok Hn]|Hstop]; [left | now right].
  split; [exact Hok|]. rewrite Hn.
  rewrite <- (Permutation_length (sorted_perm (Dict.keys V))).
  apply length_map.
Qed.
End AnyConfirmation.

Lemma report_ignores_listing_order_witness :
  Dict.wf (merge remote_env sms_config) /\
  Permutation (merge remote_env sms_config) shuffled_variables /\
  report rt_ok (confirmation (merge remote_env sms_config))
    = report rt_ok (confirmation shuffled_variables).
Proof.
  assert (Hwf : Dict.wf (merge remote_env sms_config)) by apply merge_wf.
  assert (Hperm : Permutation (merge remote_env sms_config) shuffled_variables)
    by apply Permutation_rev.
  split; [exact Hwf|]. split; [exact Hperm|].
  exact (report_ignores_listing_order rt_ok
           (confirmation (merge remote_env sms_config))
           (confirmation shuffled_variables)
           (PDict [("Variables", PDict (merge remote_env sms_config))])
           (PDict [("Variables", PDict shuffled_variables)])
           (merge remote_env sms_config) shuffled_variables
           eq_refl eq_refl eq_refl eq_refl Hwf Hperm).
Defined.

Lemma report_stops_at_first_unmaskable_witness :
  py_getitem (confirmation mixed_variables) "Environment"
    = Some (PDict [("Variables", PDict mixed_variables)]) /\
  py_getitem (PDict [("Variables", PDict mixed_variables)]) "Variables"
    = Some (PDict mixed_variables) /\
  report rt_ok (confirmation mixed_variables)
    = ([Stdout "   ✅ ALPHA: a"], inl (Raise AtLenValue)) /\
  exists n lines,
    fst (report rt_ok (confirmation mixed_variables)) = map Stdout lines /\
    Forall2 (fun key line =>
               exists value shown,
                 Dict.get key mixed_variables = Some value /\
                 display_value rt_ok key value = ret shown /\
                 line = report_line rt_ok key shown)
            (firstn n (sorted (Dict.keys mixed_variables))) lines /\
    ((snd (report rt_ok (confirmation mixed_variables)) = inr tt /\
      n = List.length mixed_variables) \/
     (exists key value s,
        nth_error (sorted (Dict.keys mixed_variables)) n = Some key /\
        Dict.get key mixed_variables = Some value /\
        display_value rt_ok key value = raise s /\
        snd (report rt_ok (confirmation mixed_variables)) = inl (Raise s))).
Proof.
  split; [reflexivity|]. split; [reflexivity|]. split; [reflexivity|].
  exact (report_stops_at_first_unmaskable rt_ok
           (confirmation mixed_variables)
           (PDict [("Variables", PDict mixed_variables)])
           mixed_variables eq_refl eq_refl).
Defined.
